(** * Elfa AI dashboard: parameter validation, payload shaping and dispatch

    A shallow embedding of [elfa_analytics.py].  The script is a Streamlit
    page: on every run it reads the widgets, and when the "Run" button of
    the selected analysis is pressed it validates the inputs, serialises
    them with [json.dumps], looks a tool up by name in the list returned
    by [get_elfaai_tools] and runs it.

    Python values are modelled as follows.
    - [str] is a sequence of Unicode code points ([pystr], a list of [N]);
      the literals of the script are written with [py "..."].
    - [int] is [Z] (Python integers are unbounded).
    - the argument of [json.dumps] and the value a tool returns are JSON
      values ([json]); a [dict] keeps its insertion order, so an object is
      an association list.
    - the calls with an effect on the page ([st.info], [st.error],
      [st.json], [st.stop]) and the tool invocation are recorded in a
      trace; exceptions are threaded through a small monad ([UI]). *)

From Stdlib Require Import ZArith NArith List String Ascii Bool Lia.
From Stdlib Require Import DecimalString.
From Stdlib Require DecimalPos DecimalZ.
Import ListNotations.

Set Warnings "-register-all".
Local Open Scope Z_scope.

(** ** Python strings *)

Definition pystr := list N.

(** The code points of an ASCII literal of the script. *)
Definition py (s : string) : pystr :=
  List.map N_of_ascii (list_ascii_of_string s).

(** [==] on [str]. *)
Fixpoint str_eqb (a b : pystr) : bool :=
  match a, b with
  | [], [] => true
  | x :: a', y :: b' => N.eqb x y && str_eqb a' b'
  | _, _ => false
  end.

(** [sep.join(parts)]. *)
Fixpoint join (sep : pystr) (parts : list pystr) : pystr :=
  match parts with
  | [] => []
  | [p] => p
  | p :: rest => p ++ sep ++ join sep rest
  end.

(** [repr] of an [int]: decimal digits, with a leading minus sign for a
    negative number. *)
Definition int_repr (z : Z) : pystr :=
  py (NilZero.string_of_int (Z.to_int z)).

(** ** [json.dumps] with its default arguments

    [ensure_ascii=True], [separators=(', ', ': ')], [sort_keys=False],
    [indent=None]. *)

Inductive json : Type :=
| JNull
| JBool (b : bool)
| JInt (z : Z)
| JStr (s : pystr)
| JArr (items : list json)
| JObj (members : list (pystr * json)).

(** One lowercase hexadecimal digit. *)
Definition hex_digit (d : N) : N :=
  (if d <? 10 then 48 + d else 87 + d)%N.

(** ['{0:04x}'.format(n)] for [n < 0x10000]. *)
Definition hex4 (n : N) : pystr :=
  [ hex_digit (N.shiftr n 12 mod 16); hex_digit (N.shiftr n 8 mod 16);
    hex_digit (N.shiftr n 4 mod 16); hex_digit (n mod 16) ]%N.

(** The replacement [json.encoder] makes for one character matched by
    [ESCAPE_ASCII] (a backslash, a double quote, or anything outside
    [' '..'~']); the other characters are copied. *)
Definition escape_char (c : N) : pystr :=
  (if c =? 92 then py "\\"
   else if c =? 34 then [92; 34]
   else if c =? 8 then py "\b"
   else if c =? 12 then py "\f"
   else if c =? 10 then py "\n"
   else if c =? 13 then py "\r"
   else if c =? 9 then py "\t"
   else if (32 <=? c) && (c <=? 126) then [c]
   else if c <? 65536 then py "\u" ++ hex4 c
   else
     let n := c - 65536 in
     let s1 := N.lor 55296 (N.land (N.shiftr n 10) 1023) in
     let s2 := N.lor 56320 (N.land n 1023) in
     py "\u" ++ hex4 s1 ++ py "\u" ++ hex4 s2)%N.

(** [py_encode_basestring_ascii]. *)
Definition encode_basestring_ascii (s : pystr) : pystr :=
  [34%N] ++ List.flat_map escape_char s ++ [34%N].

Fixpoint json_dumps (j : json) : pystr :=
  match j with
  | JNull => py "null"
  | JBool true => py "true"
  | JBool false => py "false"
  | JInt z => int_repr z
  | JStr s => encode_basestring_ascii s
  | JArr items =>
      py "[" ++ join (py ", ") (List.map json_dumps items) ++ py "]"
  | JObj members =>
      py "{"
      ++ join (py ", ")
           (List.map (fun kv => encode_basestring_ascii (fst kv)
                                ++ py ": " ++ json_dumps (snd kv)) members)
      ++ py "}"
  end.

(** Literals that contain double quotes are written with single quotes. *)
Definition pyq (s : string) : pystr :=
  List.map (fun c => if (c =? 39)%N then 34%N else c) (py s).

(** ** Effects of the script

    A run of a branch leaves a trace of the calls that are visible from
    outside: the messages put on the page and the tool invocations.  It
    ends normally, at [st.stop()], or with an exception nobody caught. *)

(** An exception, as the text [str(e)] shows. *)
Definition exc := pystr.

Inductive pyresult (A : Type) : Type :=
| Returned (a : A)
| Raised (e : exc).
Arguments Returned {A} a.
Arguments Raised {A} e.

Inductive event : Type :=
| StInfo (msg : pystr)
| StError (msg : pystr)
| StJson (result : json)
| ToolCall (tool_name : pystr) (input : pystr).

Inductive outcome (A : Type) : Type :=
| Done (a : A)
| Stopped
| Uncaught (e : exc).
Arguments Done {A} a.
Arguments Stopped {A}.
Arguments Uncaught {A} e.

Definition UI (A : Type) : Type := (list event * outcome A)%type.

Definition trace {A} (m : UI A) : list event := fst m.
Definition result_of {A} (m : UI A) : outcome A := snd m.

Definition ret {A} (a : A) : UI A := ([], Done a).

Definition bind {A B} (m : UI A) (k : A -> UI B) : UI B :=
  match snd m with
  | Done a => let r := k a in (fst m ++ fst r, snd r)
  | Stopped => (fst m, Stopped)
  | Uncaught e => (fst m, Uncaught e)
  end.

Declare Scope ui_scope.
Delimit Scope ui_scope with ui.
Notation "x <- m ;; k" := (bind m (fun x => k))
  (at level 61, m at next level, right associativity) : ui_scope.
Notation "m ;; k" := (bind m (fun _ => k))
  (at level 61, right associativity) : ui_scope.
Local Open Scope ui_scope.

Definition emit (e : event) : UI unit := ([e], Done tt).
Definition raise {A} (e : exc) : UI A := ([], Uncaught e).

(** [try: body / except Exception as e: handler], for a body whose
    exceptions all derive from [Exception] (the date conversion, which
    raises [ValueError], [OverflowError] or [OSError]).  [st.stop()] is
    not an [Exception] and passes through. *)
Definition try_except {A} (body : UI A) (handler : exc -> UI A) : UI A :=
  match snd body with
  | Uncaught e => let r := handler e in (fst body ++ fst r, snd r)
  | _ => body
  end.

Definition of_result {A} (r : pyresult A) : UI A :=
  match r with
  | Returned a => ret a
  | Raised e => raise e
  end.

Definition st_info (msg : pystr) : UI unit := emit (StInfo msg).
Definition st_error (msg : pystr) : UI unit := emit (StError msg).
Definition st_json (result : json) : UI unit := emit (StJson result).
Definition st_stop {A} : UI A := ([], Stopped).

(** ** The tools of the external toolkit

    A tool has a [name] and an asynchronous entry point; [respond] is
    what awaiting [tool._arun(input)] gives: a result or an exception. *)
Record Tool : Type := {
  name : pystr;
  respond : pystr -> pyresult json
}.

Definition _arun (t : Tool) (input : pystr) : UI json :=
  emit (ToolCall (name t) input) ;; of_result (respond t input).

(** [asyncio.run(coro)]: the caller blocks until the coroutine is done. *)
Definition run_async {A} (coro : UI A) : UI A := coro.

(** [next((t for t in tools if t.name == wanted), None)]. *)
Definition next_tool (tools : list Tool) (wanted : pystr) : option Tool :=
  List.find (fun t => str_eqb (name t) wanted) tools.

(** ** Calendar dates

    [st.date_input] gives a [datetime.date].  Its midnight is turned into
    a Unix timestamp by [datetime.timestamp()], which goes through the
    local time zone of the machine and may raise for a date the platform
    cannot represent; the conversion is therefore a component of the
    environment. *)
Record date : Type := { year : Z; month : Z; day : Z }.

Record Env : Type := {
  tools : list Tool;
  (** [int(datetime.datetime.combine(d, datetime.time()).timestamp())] *)
  midnight_timestamp : date -> pyresult Z
}.

(** ** The five analysis forms

    Each definition is the body run when the "Run" button of the form is
    pressed, with the values of the widgets as arguments. *)

(** "Get Smart Mentions".  The [dict] handed to [json.dumps] is a
    definition of its own, here and in the other forms. *)
Definition smart_mentions_dict (limit offset : Z) : json :=
  JObj [(py "limit", JInt limit); (py "offset", JInt offset)].

Definition smart_mentions (tools : list Tool) (limit offset : Z) : UI unit :=
  let smart_mentions_input := json_dumps (smart_mentions_dict limit offset) in
  let tool := next_tool tools (py "elfa_ai_get_smart_mentions") in
  match tool with
  | Some tool =>
      result <- run_async (_arun tool smart_mentions_input) ;;
      st_json result
  | None => st_error (py "Smart Mentions tool not found.")
  end.

(** "Get Top Mentions by Ticker". *)
Definition top_mentions_dict (ticker time_window : pystr)
    (page page_size : Z) (include_details : bool) : json :=
  JObj [(py "ticker", JStr ticker);
        (py "time_window", JStr time_window);
        (py "page", JInt page);
        (py "page_size", JInt page_size);
        (py "include_account_details", JBool include_details)].

Definition top_mentions (tools : list Tool) (ticker time_window : pystr)
    (page page_size : Z) (include_details : bool) : UI unit :=
  let top_mentions_input :=
    json_dumps (top_mentions_dict ticker time_window page page_size
                  include_details) in
  let tool := next_tool tools (py "elfa_ai_get_top_mentions_by_ticker") in
  match tool with
  | Some tool =>
      result <- run_async (_arun tool top_mentions_input) ;;
      st_json result
  | None => st_error (py "Top Mentions tool not found.")
  end.

(** "Search Mentions by Keywords". *)
Definition search_mentions_dict (keywords : pystr)
    (from_ts to_ts requested_limit : Z) : json :=
  JObj [(py "keywords", JStr keywords);
        (py "from_timestamp", JInt from_ts);
        (py "to_timestamp", JInt to_ts);
        (py "limit", JInt requested_limit);
        (py "cursor", JStr (py ""))].

Definition search_mentions (env : Env) (keywords : pystr)
    (from_date to_date : date) (limit_input : Z) : UI unit :=
  ts <- try_except
          (from_ts <- of_result (midnight_timestamp env from_date) ;;
           to_ts <- of_result (midnight_timestamp env to_date) ;;
           ret (from_ts, to_ts))
          (fun e => st_error (py "Date error: " ++ e) ;; st_stop) ;;
  let from_ts := fst ts in
  let to_ts := snd ts in
  let one_day := 86400 in
  let thirty_days := 30 * one_day in
  if negb ((one_day <=? to_ts - from_ts) && (to_ts - from_ts <=? thirty_days))
  then st_error (py "Error: Date range must be between 1 and 30 days.")
  else
    let requested_limit := limit_input in
    requested_limit <-
      (if requested_limit <? 20 then
         st_info (py "Limit below minimum; using 20.") ;; ret 20
       else if requested_limit >? 30 then
         st_info (py "Limit above maximum; using 30.") ;; ret 30
       else ret requested_limit) ;;
    let search_mentions_input :=
      json_dumps (search_mentions_dict keywords from_ts to_ts
                    requested_limit) in
    let tool := next_tool (tools env) (py "elfa_ai_search_mentions_by_keywords") in
    match tool with
    | Some tool =>
        result <- run_async (_arun tool search_mentions_input) ;;
        st_json result
    | None => st_error (py "Search Mentions tool not found.")
    end.

(** "Get Trending Tokens". *)
Definition trending_tokens_dict (time_window : pystr)
    (page page_size min_mentions : Z) : json :=
  JObj [(py "time_window", JStr time_window);
        (py "page", JInt page);
        (py "page_size", JInt page_size);
        (py "min_mentions", JInt min_mentions)].

Definition trending_tokens (tools : list Tool) (time_window : pystr)
    (page page_size min_mentions : Z) : UI unit :=
  let trending_tokens_input :=
    json_dumps (trending_tokens_dict time_window page page_size
                  min_mentions) in
  let tool := next_tool tools (py "elfa_ai_get_trending_tokens") in
  match tool with
  | Some tool =>
      result <- run_async (_arun tool trending_tokens_input) ;;
      st_json result
  | None => st_error (py "Trending Tokens tool not found.")
  end.

(** "Get Twitter Stats". *)
Definition twitter_stats_dict (username : pystr) : json :=
  JObj [(py "username", JStr username)].

Definition twitter_stats (tools : list Tool) (username : pystr) : UI unit :=
  let twitter_stats_input := json_dumps (twitter_stats_dict username) in
  let tool := next_tool tools (py "elfa_ai_get_smart_twitter_account_stats") in
  match tool with
  | Some tool =>
      result <- run_async (_arun tool twitter_stats_input) ;;
      st_json result
  | None => st_error (py "Twitter Stats tool not found.")
  end.

(** The choice of the selector together with the values of the widgets
    of the chosen form, at the moment its button is pressed. *)
Inductive submission : Type :=
| GetSmartMentions (limit offset : Z)
| GetTopMentionsByTicker (ticker time_window : pystr) (page page_size : Z)
    (include_details : bool)
| SearchMentionsByKeywords (keywords : pystr) (from_date to_date : date)
    (limit_input : Z)
| GetTrendingTokens (time_window : pystr) (page page_size min_mentions : Z)
| GetTwitterStats (username : pystr).

(** The [if analysis_option == ... elif ...] chain. *)
Definition dashboard (env : Env) (s : submission) : UI unit :=
  match s with
  | GetSmartMentions limit offset => smart_mentions (tools env) limit offset
  | GetTopMentionsByTicker ticker time_window page page_size include_details =>
      top_mentions (tools env) ticker time_window page page_size include_details
  | SearchMentionsByKeywords keywords from_date to_date limit_input =>
      search_mentions env keywords from_date to_date limit_input
  | GetTrendingTokens time_window page page_size min_mentions =>
      trending_tokens (tools env) time_window page page_size min_mentions
  | GetTwitterStats username => twitter_stats (tools env) username
  end.

(** The values the widgets hold before the user touches them. *)
Definition default_smart_mentions : submission := GetSmartMentions 5 0.
Definition default_top_mentions : submission :=
  GetTopMentionsByTicker (py "SOL") (py "1h") 1 5 false.
Definition default_trending_tokens : submission :=
  GetTrendingTokens (py "24h") 1 10 5.
Definition default_twitter_stats : submission := GetTwitterStats (py "").

(** ** An environment to run the model in

    On a machine whose time zone is UTC the timestamp of a midnight is
    the day number since 1970-01-01 times 86400 (proleptic Gregorian
    calendar, as [datetime] uses). *)
Definition days_from_civil (d : date) : Z :=
  let y := if month d <=? 2 then year d - 1 else year d in
  let era := y / 400 in
  let yoe := y - era * 400 in
  let mp := if month d >? 2 then month d - 3 else month d + 9 in
  let doy := (153 * mp + 2) / 5 + day d - 1 in
  let doe := yoe * 365 + yoe / 4 - yoe / 100 + doy in
  era * 146097 + doe - 719468.

(** A sample for ordinary dates; the dates at the very edge of the
    calendar, for which the real conversion raises, are not modelled. *)
Definition utc_midnight (d : date) : pyresult Z :=
  Returned (days_from_civil d * 86400).

(** A tool that answers every input with the same value. *)
Definition const_tool (nm : pystr) (answer : pyresult json) : Tool :=
  {| name := nm; respond := fun _ => answer |}.

(** ** What a run shows

    Projections of a trace, and of a JSON object, used to state the
    properties below. *)

(** The tool invocations of a trace, as (tool name, input) pairs. *)
Definition calls (tr : list event) : list (pystr * pystr) :=
  List.flat_map (fun e => match e with
                          | ToolCall n i => [(n, i)]
                          | _ => []
                          end) tr.

(** The texts given to [st.info]. *)
Definition infos (tr : list event) : list pystr :=
  List.flat_map (fun e => match e with StInfo m => [m] | _ => [] end) tr.

(** The texts given to [st.error]. *)
Definition errors (tr : list event) : list pystr :=
  List.flat_map (fun e => match e with StError m => [m] | _ => [] end) tr.

(** [list(d.keys())]. *)
Definition keys (j : json) : list pystr :=
  match j with
  | JObj members => List.map fst members
  | _ => []
  end.

(** [d.get(k)] (the keys of a [dict] are distinct). *)
Definition get (k : pystr) (j : json) : option json :=
  match j with
  | JObj members =>
      option_map snd (List.find (fun kv => str_eqb (fst kv) k) members)
  | _ => None
  end.

(** A JSON text with the spaces between its tokens removed (the spaces
    inside string literals stay).  [json.dumps] separates items with
    [", "] and keys from values with [": "]; the specification writes
    objects without these spaces. *)
Fixpoint strip_spaces (in_string escaped : bool) (s : pystr) : pystr :=
  match s with
  | [] => []
  | c :: rest =>
      if in_string then
        c :: (if escaped then strip_spaces true false rest
              else if (c =? 92)%N then strip_spaces true true rest
              else if (c =? 34)%N then strip_spaces false false rest
              else strip_spaces true false rest)
      else if (c =? 32)%N then strip_spaces false false rest
      else c :: strip_spaces (c =? 34)%N false rest
  end.

Definition compact (text : pystr) : pystr := strip_spaces false false text.

(** ** The specification's view of a request *)

(** The five query types. *)
Inductive QuerySpec : Type :=
| SmartMentions
| TopMentionsByTicker
| SearchByKeywords
| TrendingTokens
| TwitterStats.

Definition query_spec (s : submission) : QuerySpec :=
  match s with
  | GetSmartMentions _ _ => SmartMentions
  | GetTopMentionsByTicker _ _ _ _ _ => TopMentionsByTicker
  | SearchMentionsByKeywords _ _ _ _ => SearchByKeywords
  | GetTrendingTokens _ _ _ _ => TrendingTokens
  | GetTwitterStats _ => TwitterStats
  end.

(** The dispatch table of the specification: tool name and payload
    fields of each query type, in the order listed. *)
Definition table_tool_name (q : QuerySpec) : pystr :=
  match q with
  | SmartMentions => py "elfa_ai_get_smart_mentions"
  | TopMentionsByTicker => py "elfa_ai_get_top_mentions_by_ticker"
  | SearchByKeywords => py "elfa_ai_search_mentions_by_keywords"
  | TrendingTokens => py "elfa_ai_get_trending_tokens"
  | TwitterStats => py "elfa_ai_get_smart_twitter_account_stats"
  end.

Definition table_payload_fields (q : QuerySpec) : list pystr :=
  match q with
  | SmartMentions => [py "limit"; py "offset"]
  | TopMentionsByTicker =>
      [py "ticker"; py "time_window"; py "page"; py "page_size";
       py "include_account_details"]
  | SearchByKeywords =>
      [py "keywords"; py "from_timestamp"; py "to_timestamp"; py "limit";
       py "cursor"]
  | TrendingTokens =>
      [py "time_window"; py "page"; py "page_size"; py "min_mentions"]
  | TwitterStats => [py "username"]
  end.

(** The limit bound of SearchByKeywords: 20 below 20, 30 above 30. *)
Definition clamped_limit (L : Z) : Z :=
  if L <? 20 then 20 else if 30 <? L then 30 else L.

(** The validated request of the specification: each field of the table
    with its normalised value.  [from_ts] and [to_ts] are the timestamps
    of the two dates of a keyword search (unused by the other types). *)
Definition validated_request (s : submission) (from_ts to_ts : Z)
  : list (pystr * json) :=
  match s with
  | GetSmartMentions limit offset =>
      [(py "limit", JInt limit); (py "offset", JInt offset)]
  | GetTopMentionsByTicker ticker time_window page page_size details =>
      [(py "ticker", JStr ticker); (py "time_window", JStr time_window);
       (py "page", JInt page); (py "page_size", JInt page_size);
       (py "include_account_details", JBool details)]
  | SearchMentionsByKeywords keywords _ _ limit_input =>
      [(py "keywords", JStr keywords); (py "from_timestamp", JInt from_ts);
       (py "to_timestamp", JInt to_ts);
       (py "limit", JInt (clamped_limit limit_input));
       (py "cursor", JStr [])]
  | GetTrendingTokens time_window page page_size min_mentions =>
      [(py "time_window", JStr time_window); (py "page", JInt page);
       (py "page_size", JInt page_size);
       (py "min_mentions", JInt min_mentions)]
  | GetTwitterStats username => [(py "username", JStr username)]
  end.

(** A submission passes validation: nothing to check for four of the
    forms; for a keyword search both dates convert, to [from_ts] and
    [to_ts], and these are between one and thirty days apart. *)
Definition accepted (env : Env) (s : submission) (from_ts to_ts : Z) : Prop :=
  match s with
  | SearchMentionsByKeywords _ from_date to_date _ =>
      midnight_timestamp env from_date = Returned from_ts /\
      midnight_timestamp env to_date = Returned to_ts /\
      86400 <= to_ts - from_ts <= 2592000
  | _ => True
  end.

(** The messages of the script. *)
Definition range_error : pystr :=
  py "Error: Date range must be between 1 and 30 days.".
Definition below_notice : pystr := py "Limit below minimum; using 20.".
Definition above_notice : pystr := py "Limit above maximum; using 30.".

Definition not_found_error (q : QuerySpec) : pystr :=
  match q with
  | SmartMentions => py "Smart Mentions tool not found."
  | TopMentionsByTicker => py "Top Mentions tool not found."
  | SearchByKeywords => py "Search Mentions tool not found."
  | TrendingTokens => py "Trending Tokens tool not found."
  | TwitterStats => py "Twitter Stats tool not found."
  end.

(** The notices a keyword search with limit [L] gives before dispatch. *)
Definition limit_notices (L : Z) : list pystr :=
  if L <? 20 then [below_notice]
  else if 30 <? L then [above_notice]
  else [].

(** The notices of a submission: only a keyword search has any. *)
Definition notices (s : submission) : list pystr :=
  match s with
  | SearchMentionsByKeywords _ _ _ limit_input => limit_notices limit_input
  | _ => []
  end.

(** What the lookup and the invocation that follows it leave behind,
    for the tool found (or not) and the input built. *)
Definition lookup_outcome (found : option Tool) (input not_found : pystr)
  : UI unit :=
  match found with
  | Some tool =>
      match respond tool input with
      | Returned r => ([ToolCall (name tool) input; StJson r], Done tt)
      | Raised e => ([ToolCall (name tool) input], Uncaught e)
      end
  | None => ([StError not_found], Done tt)
  end.

(** ** Reading a string literal back

    What a consumer of the payload ([json.loads]) makes of the body of a
    string literal: a backslash starts an escape, [\uXXXX] is one
    UTF-16 code unit, and a high surrogate followed by a low one is a
    character beyond U+FFFF.  Used to show that the serialisation loses
    nothing of a text. *)
Definition unhex_digit (h : N) : N :=
  (if h <? 58 then h - 48 else h - 87)%N.
Definition unhex4 (a b c d : N) : N :=
  (4096 * unhex_digit a + 256 * unhex_digit b + 16 * unhex_digit c
   + unhex_digit d)%N.
Definition unescape_letter (k : N) : N :=
  (if k =? 98 then 8 else if k =? 102 then 12 else if k =? 110 then 10
   else if k =? 114 then 13 else if k =? 116 then 9 else k)%N.
Definition is_high (c : N) : bool := ((55296 <=? c) && (c <? 56320))%N.
Definition is_low (c : N) : bool := ((56320 <=? c) && (c <? 57344))%N.

Fixpoint unescape (s : pystr) : pystr :=
  match s with
  | [] => []
  | c :: rest =>
      if negb (c =? 92)%N then c :: unescape rest
      else
        match rest with
        | [] => []
        | k :: rest1 =>
            if negb (k =? 117)%N then unescape_letter k :: unescape rest1
            else
              match rest1 with
              | a :: b :: c1 :: d :: rest2 =>
                  let hi := unhex4 a b c1 d in
                  if is_high hi then
                    match rest2 with
                    | bs :: u :: e :: f :: g :: h :: rest3 =>
                        let lo := unhex4 e f g h in
                        if (bs =? 92)%N && (u =? 117)%N && is_low lo
                        then (65536 + (hi - 55296) * 1024 + (lo - 56320))%N
                             :: unescape rest3
                        else hi :: unescape rest2
                    | _ => hi :: unescape rest2
                    end
                  else hi :: unescape rest2
              | _ => []
              end
        end
  end.

(** A Unicode scalar value: a code point that is not a surrogate.  Text
    that reaches the script from the browser consists of these. *)
Definition scalar (c : N) : bool :=
  ((c <? 55296) || ((57344 <=? c) && (c <? 1114112)))%N.

(** A character [json.dumps] copies as it is: printable ASCII other than
    the double quote and the backslash. *)
Definition is_plain (c : N) : bool :=
  ((32 <=? c) && (c <=? 126) && negb (c =? 34) && negb (c =? 92))%N.

(** ** Sample environments *)

Definition jan_1_2024 : date := {| year := 2024; month := 1; day := 1 |}.
Definition jan_2_2024 : date := {| year := 2024; month := 1; day := 2 |}.
Definition jan_31_2024 : date := {| year := 2024; month := 1; day := 31 |}.
Definition feb_1_2024 : date := {| year := 2024; month := 2; day := 1 |}.

(** The five tools of the toolkit, each answering [{"status": "ok"}]. *)
Definition ok_answer : pyresult json :=
  Returned (JObj [(py "status", JStr (py "ok"))]).

Definition elfa_tools : list Tool :=
  [ const_tool (py "elfa_ai_ping") ok_answer;
    const_tool (py "elfa_ai_get_smart_mentions") ok_answer;
    const_tool (py "elfa_ai_get_top_mentions_by_ticker") ok_answer;
    const_tool (py "elfa_ai_search_mentions_by_keywords") ok_answer;
    const_tool (py "elfa_ai_get_trending_tokens") ok_answer;
    const_tool (py "elfa_ai_get_smart_twitter_account_stats") ok_answer ].

Definition utc_env : Env :=
  {| tools := elfa_tools; midnight_timestamp := utc_midnight |}.

(** A toolkit without the tools of the dashboard. *)
Definition bare_env : Env :=
  {| tools := [const_tool (py "elfa_ai_ping") ok_answer];
     midnight_timestamp := utc_midnight |}.

(** A toolkit whose remote end is unreachable: every call raises. *)
Definition unreachable : pyresult json := Raised (py "Connection refused").

Definition offline_env : Env :=
  {| tools :=
       [ const_tool (py "elfa_ai_get_smart_mentions") unreachable;
         const_tool (py "elfa_ai_get_top_mentions_by_ticker") unreachable;
         const_tool (py "elfa_ai_search_mentions_by_keywords") unreachable;
         const_tool (py "elfa_ai_get_trending_tokens") unreachable;
         const_tool (py "elfa_ai_get_smart_twitter_account_stats") unreachable ];
     midnight_timestamp := utc_midnight |}.

(** ** The script around the forms

    Before any form is handled the script builds the toolkit:
    [init_solana] reads two environment variables, constructs the agent
    kit and asks it for its tools; the script stops when that failed.
    The environment variables, the constructor and the tool listing
    belong to the machine and to the external toolkit. *)

(** What a call into the toolkit gives.  The handler of [init_solana] is
    [except Exception]: it catches the exceptions whose class derives
    from [Exception], and lets through those that derive from
    [BaseException] only ([KeyboardInterrupt], [SystemExit],
    [asyncio.CancelledError], ...). *)
Inductive attempt (A : Type) : Type :=
| Succeeds (a : A)
| RaisesException (e : exc)
| RaisesBaseException (e : exc).
Arguments Succeeds {A} a.
Arguments RaisesException {A} e.
Arguments RaisesBaseException {A} e.

(** One call after another: the first exception ends the sequence. *)
Definition and_then {A B} (r : attempt A) (k : A -> attempt B) : attempt B :=
  match r with
  | Succeeds a => k a
  | RaisesException e => RaisesException e
  | RaisesBaseException e => RaisesBaseException e
  end.

(** [try: body / except Exception as e: handler]. *)
Definition except_Exception {A} (body : attempt A) (handler : exc -> UI A)
  : UI A :=
  match body with
  | Succeeds a => ret a
  | RaisesException e => handler e
  | RaisesBaseException e => raise e
  end.

Record Platform (Kit : Type) : Type := {
  (** [os.getenv(name)]: [None] for a variable that is not set. *)
  getenv : pystr -> option pystr;
  (** [SolanaAgentKit(private_key=..., elfa_ai_api_key=...)]. *)
  SolanaAgentKit : option pystr -> option pystr -> attempt Kit;
  (** [get_elfaai_tools(solana_kit)]. *)
  get_elfaai_tools : Kit -> attempt (list Tool);
  (** The conversion of a date's midnight, as in [Env]. *)
  local_midnight : date -> pyresult Z
}.
Arguments getenv {Kit} p name.
Arguments SolanaAgentKit {Kit} p private_key elfa_ai_api_key.
Arguments get_elfaai_tools {Kit} p solana_kit.
Arguments local_midnight {Kit} p d.

(** [init_solana()], on the run that executes its body.  It returns the
    pair [(solana_kit, tools)], or [(None, None)] after an exception it
    caught; the two cases are [Some (solana_kit, tools)] and [None]
    here. *)
Definition init_solana {Kit} (p : Platform Kit)
  : UI (option (Kit * list Tool)) :=
  except_Exception
    (and_then (SolanaAgentKit p (getenv p (py "SOLANA_PRIVATE_KEY"))
                 (getenv p (py "ELFA_AI_API_KEY")))
       (fun solana_kit =>
          and_then (get_elfaai_tools p solana_kit)
            (fun tools => Succeeds (Some (solana_kit, tools)))))
    (fun e => st_error (py "Error initializing AgentiPy: " ++ e) ;; ret None).

(** One run of the script: initialisation, [st.stop()] when there is no
    kit, then the form chosen in the selector, whose body runs when its
    button was pressed in this run. *)
Definition script {Kit} (p : Platform Kit) (form : submission)
    (pressed : bool) : UI unit :=
  init <- init_solana p ;;
  match init with
  | None => st_stop
  | Some (solana_kit, tools) =>
      if pressed then
        dashboard {| tools := tools; midnight_timestamp := local_midnight p |}
          form
      else ret tt
  end.

(** The results given to [st.json]. *)
Definition results (tr : list event) : list json :=
  List.flat_map (fun e => match e with StJson j => [j] | _ => [] end) tr.

(** Printable ASCII. *)
Definition printable (c : N) : bool := ((32 <=? c) && (c <=? 126))%N.

(** The free texts of a submission, as typed by the user. *)
Definition user_texts (s : submission) : list pystr :=
  match s with
  | GetSmartMentions _ _ => []
  | GetTopMentionsByTicker ticker time_window _ _ _ => [ticker; time_window]
  | SearchMentionsByKeywords keywords _ _ _ => [keywords]
  | GetTrendingTokens time_window _ _ _ => [time_window]
  | GetTwitterStats username => [username]
  end.

(** All the texts of a submission consist of Unicode scalar values. *)
Definition scalar_texts (s : submission) : bool :=
  List.forallb (List.forallb scalar) (user_texts s).

(** ** Sample platforms *)

(** A machine with both variables set and a toolkit that accepts them. *)
Definition keyed_platform : Platform unit :=
  {| getenv := fun k =>
       if str_eqb k (py "SOLANA_PRIVATE_KEY") then Some (py "4kL9")
       else if str_eqb k (py "ELFA_AI_API_KEY") then Some (py "elfak_1")
       else None;
     SolanaAgentKit := fun private_key api_key =>
       match private_key, api_key with
       | Some _, Some _ => Succeeds tt
       | _, _ => RaisesException (py "A valid private key must be provided.")
       end;
     get_elfaai_tools := fun _ => Succeeds elfa_tools;
     local_midnight := utc_midnight |}.

(** The same toolkit on a machine where the variables are not set. *)
Definition keyless_platform : Platform unit :=
  {| getenv := fun _ => None;
     SolanaAgentKit := SolanaAgentKit keyed_platform;
     get_elfaai_tools := get_elfaai_tools keyed_platform;
     local_midnight := utc_midnight |}.

(** A machine on which the construction of the kit is interrupted: the
    exception ([SystemExit]) does not derive from [Exception]. *)
Definition interrupted_platform : Platform unit :=
  {| getenv := getenv keyed_platform;
     SolanaAgentKit := fun _ _ => RaisesBaseException (py "interrupted");
     get_elfaai_tools := get_elfaai_tools keyed_platform;
     local_midnight := utc_midnight |}.

(** A registry in which the Smart Mentions tool is registered twice,
    behind an unrelated tool; the second registration cannot be reached. *)
Definition doubled_tools : list Tool :=
  [ const_tool (py "elfa_ai_ping") ok_answer;
    const_tool (py "elfa_ai_get_smart_mentions") (Returned (JInt 1));
    const_tool (py "elfa_ai_get_smart_mentions") unreachable ].

(** A character of the decimal numerals: a digit or the minus sign. *)
Definition numeral_char (c : N) : bool :=
  ((c =? 45) || ((48 <=? c) && (c <=? 57)))%N.

(** A machine on which dates before 1970 have no timestamp (the
    conversion raises [OSError] there). *)
Definition epoch_bound_midnight (d : date) : pyresult Z :=
  if year d <? 1970 then Raised (py "[Errno 22] Invalid argument")
  else utc_midnight d.

Definition epoch_bound_env : Env :=
  {| tools := elfa_tools; midnight_timestamp := epoch_bound_midnight |}.

Definition dec_31_1969 : date := {| year := 1969; month := 12; day := 31 |}.

(** * Properties *)

(** ** Strings and the registry *)

Lemma str_eqb_eq (a b : pystr) : str_eqb a b = true <-> a = b.
Proof.
  revert b; induction a as [|x a IH]; intros [|y b]; simpl;
    try (split; congruence).
  rewrite andb_true_iff, N.eqb_eq, IH.
  split; [intros [-> ->]; reflexivity | intros H; inversion H; auto].
Qed.

Lemma str_eqb_refl (a : pystr) : str_eqb a a = true.
Proof. apply str_eqb_eq; reflexivity. Qed.

Lemma next_tool_name tools wanted t :
  next_tool tools wanted = Some t -> name t = wanted.
Proof.
  unfold next_tool; intros H.
  apply List.find_some in H as [_ H].
  now apply str_eqb_eq.
Qed.

Lemma next_tool_in tools wanted t :
  next_tool tools wanted = Some t -> In t tools.
Proof. unfold next_tool; intros H; now apply List.find_some in H. Qed.

Lemma next_tool_none tools wanted :
  next_tool tools wanted = None <->
  (forall t, In t tools -> name t <> wanted).
Proof.
  unfold next_tool; split.
  - intros H t Hin Heq.
    pose proof (List.find_none _ _ H t Hin) as Hf; simpl in Hf.
    rewrite Heq, str_eqb_refl in Hf; discriminate.
  - intros H.
    destruct (List.find _ tools) as [t|] eqn:E; [|reflexivity].
    apply List.find_some in E as [Hin E].
    apply str_eqb_eq in E. now elim (H t Hin).
Qed.

(** ** The monad *)

Lemma bind_ret_l {A B} (a : A) (k : A -> UI B) : bind (ret a) k = k a.
Proof. unfold bind, ret; simpl; now destruct (k a). Qed.

Lemma bind_emit {B} (e : event) (k : unit -> UI B) :
  bind (emit e) k = (e :: fst (k tt), snd (k tt)).
Proof. reflexivity. Qed.

Lemma bind_raise {A B} (e : exc) (k : A -> UI B) :
  bind (raise e) k = raise e.
Proof. reflexivity. Qed.

Lemma bind_assoc {A B C} (m : UI A) (k : A -> UI B) (h : B -> UI C) :
  bind (bind m k) h = bind m (fun a => bind (k a) h).
Proof.
  destruct m as [tr [a| |e]]; unfold bind; simpl; try reflexivity.
  destruct (k a) as [tr' [b| |e']]; simpl; try reflexivity.
  now rewrite app_assoc.
Qed.

(** ** Closed form of the five branches *)

Lemma lookup_and_run found input not_found :
  match found with
  | Some tool => result <- run_async (_arun tool input) ;; st_json result
  | None => st_error not_found
  end = lookup_outcome found input not_found.
Proof.
  destruct found as [tool|]; [|reflexivity].
  unfold run_async, _arun, lookup_outcome, of_result.
  destruct (respond tool input); reflexivity.
Qed.

Lemma limit_step (L : Z) :
  (if L <? 20 then st_info (py "Limit below minimum; using 20.") ;; ret 20
   else if L >? 30 then st_info (py "Limit above maximum; using 30.") ;; ret 30
   else ret L)
  = (List.map StInfo (limit_notices L), Done (clamped_limit L)).
Proof.
  unfold limit_notices, clamped_limit.
  rewrite Z.gtb_ltb.
  destruct (L <? 20); [reflexivity|].
  destruct (30 <? L); reflexivity.
Qed.

Lemma range_test (from_ts to_ts : Z) :
  negb ((86400 <=? to_ts - from_ts) && (to_ts - from_ts <=? 30 * 86400)) = false
  <-> 86400 <= to_ts - from_ts <= 2592000.
Proof.
  rewrite negb_false_iff, andb_true_iff, Z.leb_le, Z.leb_le. lia.
Qed.

Lemma search_mentions_converted env keywords from_date to_date limit_input
    from_ts to_ts :
  midnight_timestamp env from_date = Returned from_ts ->
  midnight_timestamp env to_date = Returned to_ts ->
  search_mentions env keywords from_date to_date limit_input =
  if negb ((86400 <=? to_ts - from_ts) && (to_ts - from_ts <=? 30 * 86400))
  then ([StError range_error], Done tt)
  else
    let out :=
      lookup_outcome
        (next_tool (tools env) (py "elfa_ai_search_mentions_by_keywords"))
        (json_dumps (search_mentions_dict keywords from_ts to_ts
                       (clamped_limit limit_input)))
        (py "Search Mentions tool not found.") in
    (List.map StInfo (limit_notices limit_input) ++ fst out, snd out).
Proof.
  intros Hf Ht. unfold search_mentions. rewrite Hf, Ht.
  cbn [of_result]. rewrite !bind_ret_l.
  unfold try_except. cbn [snd ret]. rewrite bind_ret_l. cbn [fst snd].
  destruct (negb _); [reflexivity|].
  rewrite limit_step. unfold bind at 1. cbn [fst snd].
  rewrite lookup_and_run. reflexivity.
Qed.

Lemma search_mentions_rejected env keywords from_date to_date limit_input
    from_ts to_ts :
  midnight_timestamp env from_date = Returned from_ts ->
  midnight_timestamp env to_date = Returned to_ts ->
  ~ (86400 <= to_ts - from_ts <= 2592000) ->
  search_mentions env keywords from_date to_date limit_input
  = ([StError range_error], Done tt).
Proof.
  intros Hf Ht Hr.
  rewrite (search_mentions_converted _ _ _ _ _ _ _ Hf Ht).
  destruct (negb _) eqn:E; [reflexivity|].
  apply range_test in E. contradiction.
Qed.

Lemma dashboard_accepted env s from_ts to_ts :
  accepted env s from_ts to_ts ->
  dashboard env s =
  let out :=
    lookup_outcome
      (next_tool (tools env) (table_tool_name (query_spec s)))
      (json_dumps (JObj (validated_request s from_ts to_ts)))
      (not_found_error (query_spec s)) in
  (List.map StInfo (notices s) ++ fst out, snd out).
Proof.
  destruct s; intros Hacc; cbn [dashboard query_spec notices].
  - unfold smart_mentions. rewrite lookup_and_run.
    now destruct (lookup_outcome _ _ _).
  - unfold top_mentions. rewrite lookup_and_run.
    now destruct (lookup_outcome _ _ _).
  - destruct Hacc as (Hf & Ht & Hr).
    rewrite (search_mentions_converted _ _ _ _ _ _ _ Hf Ht).
    apply range_test in Hr. rewrite Hr. reflexivity.
  - unfold trending_tokens. rewrite lookup_and_run.
    now destruct (lookup_outcome _ _ _).
  - unfold twitter_stats. rewrite lookup_and_run.
    now destruct (lookup_outcome _ _ _).
Qed.

Lemma calls_app (a b : list event) : calls (a ++ b) = calls a ++ calls b.
Proof. unfold calls. apply List.flat_map_app. Qed.

Lemma infos_app (a b : list event) : infos (a ++ b) = infos a ++ infos b.
Proof. unfold infos. apply List.flat_map_app. Qed.

Lemma errors_app (a b : list event) : errors (a ++ b) = errors a ++ errors b.
Proof. unfold errors. apply List.flat_map_app. Qed.

Lemma calls_notices (l : list pystr) : calls (List.map StInfo l) = [].
Proof. induction l; simpl; auto. Qed.

Lemma errors_notices (l : list pystr) : errors (List.map StInfo l) = [].
Proof. induction l; simpl; auto. Qed.

Lemma infos_notices (l : list pystr) : infos (List.map StInfo l) = l.
Proof. induction l; simpl; congruence. Qed.

Create Rewrite HintDb projections.
#[local] Hint Rewrite calls_app infos_app errors_app calls_notices
  errors_notices infos_notices app_nil_r : projections.

Lemma in_calls tr n i : In (n, i) (calls tr) <-> In (ToolCall n i) tr.
Proof.
  unfold calls. rewrite List.in_flat_map. split.
  - intros (e & Hin & He). destruct e; simpl in He; try contradiction.
    destruct He as [He|[]]. now inversion He; subst.
  - intros H. exists (ToolCall n i). split; [assumption| now left].
Qed.

Lemma in_errors tr m : In m (errors tr) <-> In (StError m) tr.
Proof.
  unfold errors. rewrite List.in_flat_map. split.
  - intros (e & Hin & He). destruct e; simpl in He; try contradiction.
    destruct He as [He|[]]. now subst.
  - intros H. exists (StError m). split; [assumption| now left].
Qed.

Lemma in_infos tr m : In m (infos tr) <-> In (StInfo m) tr.
Proof.
  unfold infos. rewrite List.in_flat_map. split.
  - intros (e & Hin & He). destruct e; simpl in He; try contradiction.
    destruct He as [He|[]]. now subst.
  - intros H. exists (StInfo m). split; [assumption| now left].
Qed.

(** The projections of the trace of an accepted submission. *)
Lemma accepted_calls env s from_ts to_ts :
  accepted env s from_ts to_ts ->
  calls (trace (dashboard env s)) =
  match next_tool (tools env) (table_tool_name (query_spec s)) with
  | Some tool =>
      [(name tool, json_dumps (JObj (validated_request s from_ts to_ts)))]
  | None => []
  end.
Proof.
  intros H. rewrite (dashboard_accepted _ _ _ _ H). unfold trace.
  cbn [fst]. autorewrite with projections. unfold lookup_outcome.
  destruct (next_tool _ _) as [tool|]; [|reflexivity].
  destruct (respond tool _); reflexivity.
Qed.

Lemma accepted_errors env s from_ts to_ts :
  accepted env s from_ts to_ts ->
  errors (trace (dashboard env s)) =
  match next_tool (tools env) (table_tool_name (query_spec s)) with
  | Some tool => []
  | None => [not_found_error (query_spec s)]
  end.
Proof.
  intros H. rewrite (dashboard_accepted _ _ _ _ H). unfold trace.
  cbn [fst]. autorewrite with projections. unfold lookup_outcome.
  destruct (next_tool _ _) as [tool|]; [|reflexivity].
  destruct (respond tool _); reflexivity.
Qed.

Lemma accepted_infos env s from_ts to_ts :
  accepted env s from_ts to_ts ->
  infos (trace (dashboard env s)) = notices s.
Proof.
  intros H. rewrite (dashboard_accepted _ _ _ _ H). unfold trace.
  cbn [fst]. autorewrite with projections. unfold lookup_outcome.
  destruct (next_tool _ _) as [tool|]; [|now autorewrite with projections].
  destruct (respond tool _); now autorewrite with projections.
Qed.

Lemma validated_request_keys s from_ts to_ts :
  List.map fst (validated_request s from_ts to_ts)
  = table_payload_fields (query_spec s).
Proof. destruct s; reflexivity. Qed.

Lemma search_mentions_from_raises env keywords from_date to_date limit_input e :
  midnight_timestamp env from_date = Raised e ->
  search_mentions env keywords from_date to_date limit_input
  = ([StError (py "Date error: " ++ e)], Stopped).
Proof. intros H. unfold search_mentions. rewrite H. reflexivity. Qed.

Lemma search_mentions_to_raises env keywords from_date to_date limit_input
    from_ts e :
  midnight_timestamp env from_date = Returned from_ts ->
  midnight_timestamp env to_date = Raised e ->
  search_mentions env keywords from_date to_date limit_input
  = ([StError (py "Date error: " ++ e)], Stopped).
Proof. intros Hf Ht. unfold search_mentions. rewrite Hf, Ht. reflexivity. Qed.

(** Whatever the submission, a run either stops before the lookup with
    one error message and no call, or it is the run of an accepted
    submission. *)
Lemma dashboard_cases env s :
  (exists from_ts to_ts, accepted env s from_ts to_ts) \/
  (exists msg o, dashboard env s = ([StError msg], o) /\
                 forall e, o <> Uncaught e).
Proof.
  destruct s; try (left; exists 0, 0; exact I).
  cbn [dashboard accepted].
  destruct (midnight_timestamp env from_date) as [from_ts|e] eqn:Hf.
  - destruct (midnight_timestamp env to_date) as [to_ts|e] eqn:Ht.
    + destruct (Z_le_dec 86400 (to_ts - from_ts)) as [H1|H1];
        [destruct (Z_le_dec (to_ts - from_ts) 2592000) as [H2|H2]|].
      * left. exists from_ts, to_ts. auto.
      * right. exists range_error, (Done tt). split; [|discriminate].
        apply (search_mentions_rejected _ _ _ _ _ _ _ Hf Ht). lia.
      * right. exists range_error, (Done tt). split; [|discriminate].
        apply (search_mentions_rejected _ _ _ _ _ _ _ Hf Ht). lia.
    + right. exists (py "Date error: " ++ e), Stopped. split; [|discriminate].
      apply (search_mentions_to_raises _ _ _ _ _ _ _ Hf Ht).
  - right. exists (py "Date error: " ++ e), Stopped. split; [|discriminate].
    now apply search_mentions_from_raises.
Qed.

Lemma not_found_is_not_range_error q : not_found_error q <> range_error.
Proof. destruct q; intros H; vm_compute in H; discriminate. Qed.

(** ** Keyword search: the date range *)

Lemma in_range_dec (from_ts to_ts : Z) :
  {86400 <= to_ts - from_ts <= 2592000}
  + {~ (86400 <= to_ts - from_ts <= 2592000)}.
Proof.
  destruct (Z_le_dec 86400 (to_ts - from_ts));
    [destruct (Z_le_dec (to_ts - from_ts) 2592000)|];
    [left|right|right]; lia.
Qed.

Section ConvertedDates.

(** A keyword search whose two dates convert. *)
Variables (env : Env) (keywords : pystr) (from_date to_date : date).
Variables from_ts to_ts : Z.
Hypothesis from_converts : midnight_timestamp env from_date = Returned from_ts.
Hypothesis to_converts : midnight_timestamp env to_date = Returned to_ts.

Local Lemma in_range_accepted limit_input :
  86400 <= to_ts - from_ts <= 2592000 ->
  accepted env
    (SearchMentionsByKeywords keywords from_date to_date limit_input)
    from_ts to_ts.
Proof. intros H. split; [|split]; assumption. Qed.

Local Lemma out_of_range_run limit_input :
  ~ (86400 <= to_ts - from_ts <= 2592000) ->
  dashboard env (SearchMentionsByKeywords keywords from_date to_date limit_input)
  = ([StError range_error], Done tt).
Proof.
  intros H. now apply search_mentions_rejected with from_ts to_ts.
Qed.

(** C1.  With both dates converted to [from_ts] and [to_ts], a keyword
    search passes the range check exactly when
    [86400 <= to_ts - from_ts <= 2592000].  In range, the range error is
    not reported and the search tool, when the registry has it, is
    invoked once with the built input; out of range, the page shows the
    range error and no tool is invoked. *)
Theorem search_range_gate limit_input :
  let r := search_mentions env keywords from_date to_date limit_input in
  (86400 <= to_ts - from_ts <= 2592000 <->
   ~ In (StError range_error) (trace r)) /\
  (forall tool,
     next_tool (tools env) (py "elfa_ai_search_mentions_by_keywords")
       = Some tool ->
     (86400 <= to_ts - from_ts <= 2592000 <->
      calls (trace r) =
        [(py "elfa_ai_search_mentions_by_keywords",
          json_dumps (search_mentions_dict keywords from_ts to_ts
                        (clamped_limit limit_input)))])) /\
  (~ (86400 <= to_ts - from_ts <= 2592000) ->
   errors (trace r) = [range_error] /\ calls (trace r) = [] /\
   result_of r = Done tt).
Proof.
  intros r.
  set (s := SearchMentionsByKeywords keywords from_date to_date limit_input).
  change r with (dashboard env s).
  pose proof (in_range_accepted limit_input) as Hin.
  pose proof (out_of_range_run limit_input) as Hout.
  fold s in Hin, Hout.
  split; [|split].
  - split.
    + intros H Herr. apply in_errors in Herr.
      rewrite (accepted_errors _ _ _ _ (Hin H)) in Herr.
      destruct (next_tool _ _); simpl in Herr; [assumption|].
      destruct Herr as [Herr|[]].
      now apply (not_found_is_not_range_error SearchByKeywords) in Herr.
    + intros H. destruct (in_range_dec from_ts to_ts) as [Hr|Hr];
        [exact Hr|].
      exfalso. apply H. rewrite (Hout Hr). now left.
  - intros tool Htool. split.
    + intros H. rewrite (accepted_calls _ _ _ _ (Hin H)).
      cbn [query_spec table_tool_name s]. rewrite Htool.
      now rewrite (next_tool_name _ _ _ Htool).
    + intros H. destruct (in_range_dec from_ts to_ts) as [Hr|Hr];
        [exact Hr|].
      rewrite (Hout Hr) in H. discriminate.
  - intros H. rewrite (Hout H). repeat split.
Qed.

(** C9.  When the range check fails the whole run is the range error:
    no notice about the limit, no tool invocation, and the same run
    whatever limit was asked for. *)
Theorem search_rejection_is_only_the_range_error limit_input :
  ~ (86400 <= to_ts - from_ts <= 2592000) ->
  let r := search_mentions env keywords from_date to_date limit_input in
  r = ([StError range_error], Done tt) /\
  infos (trace r) = [] /\
  calls (trace r) = [] /\
  (forall other_limit,
     search_mentions env keywords from_date to_date other_limit = r).
Proof.
  intros Hr r. subst r.
  pose proof (fun L => out_of_range_run L Hr) as Hout. cbn [dashboard] in Hout.
  rewrite !Hout. repeat split.
  intros other. apply Hout.
Qed.

End ConvertedDates.

(** ** Keyword search: the limit *)

(** C2.  In an accepted keyword search the limit of the payload is 20
    for a request below 20, 30 for a request above 30, and the request
    itself otherwise, for every integer [L] (the widget gives [L >= 1]).
    A notice is given exactly when the value was changed; the run goes
    on to the lookup and reports no error for the limit. *)
Theorem search_limit_clamped env keywords from_date to_date L from_ts to_ts :
  accepted env (SearchMentionsByKeywords keywords from_date to_date L)
    from_ts to_ts ->
  let r := search_mentions env keywords from_date to_date L in
  let final := if L <? 20 then 20 else if L >? 30 then 30 else L in
  20 <= final <= 30 /\
  infos (trace r) =
    (if L <? 20 then [below_notice]
     else if L >? 30 then [above_notice] else []) /\
  (20 <= L <= 30 -> final = L /\ infos (trace r) = []) /\
  (forall tool,
     next_tool (tools env) (py "elfa_ai_search_mentions_by_keywords")
       = Some tool ->
     calls (trace r) =
       [(py "elfa_ai_search_mentions_by_keywords",
         json_dumps (search_mentions_dict keywords from_ts to_ts final))] /\
     get (py "limit") (search_mentions_dict keywords from_ts to_ts final)
       = Some (JInt final) /\
     errors (trace r) = []) /\
  (next_tool (tools env) (py "elfa_ai_search_mentions_by_keywords") = None ->
   errors (trace r) = [py "Search Mentions tool not found."]).
Proof.
  intros Hacc r final.
  set (s := SearchMentionsByKeywords keywords from_date to_date L) in *.
  assert (Hfinal : final = clamped_limit L)
    by (unfold final, clamped_limit; now rewrite Z.gtb_ltb).
  assert (Hinfos : infos (trace r) =
            (if L <? 20 then [below_notice]
             else if L >? 30 then [above_notice] else [])).
  { change r with (dashboard env s). rewrite (accepted_infos _ _ _ _ Hacc).
    cbn [notices s]. unfold limit_notices. now rewrite Z.gtb_ltb. }
  split; [|split; [exact Hinfos|split; [|split]]].
  - unfold final. rewrite Z.gtb_ltb.
    destruct (Z.ltb_spec L 20); [lia|].
    destruct (Z.ltb_spec 30 L); lia.
  - intros HL. rewrite Hinfos. unfold final. rewrite Z.gtb_ltb.
    destruct (Z.ltb_spec L 20); [lia|].
    destruct (Z.ltb_spec 30 L); [lia|]. split; reflexivity.
  - intros tool Htool. change r with (dashboard env s).
    rewrite (accepted_calls _ _ _ _ Hacc), (accepted_errors _ _ _ _ Hacc).
    cbn [query_spec table_tool_name s]. rewrite Htool, Hfinal.
    rewrite (next_tool_name _ _ _ Htool). repeat split.
  - intros Hnone. change r with (dashboard env s).
    rewrite (accepted_errors _ _ _ _ Hacc).
    cbn [query_spec table_tool_name s]. now rewrite Hnone.
Qed.

(** ** Dispatch *)

Lemma call_shape env s n p :
  In (ToolCall n p) (trace (dashboard env s)) ->
  exists from_ts to_ts,
    accepted env s from_ts to_ts /\
    n = table_tool_name (query_spec s) /\
    p = json_dumps (JObj (validated_request s from_ts to_ts)).
Proof.
  intros Hin.
  destruct (dashboard_cases env s) as [(f & t & Hacc)|(msg & o & Hrun & _)].
  - exists f, t. split; [assumption|].
    apply in_calls in Hin. rewrite (accepted_calls _ _ _ _ Hacc) in Hin.
    destruct (next_tool _ _) as [tool|] eqn:E; [|contradiction].
    destruct Hin as [Hin|[]]. inversion Hin; subst.
    split; [|reflexivity]. now apply next_tool_name with (tools env).
  - rewrite Hrun in Hin. destruct Hin as [Hin|[]]. discriminate.
Qed.

(** C3.  For an accepted submission and a registry that has the tool of
    its query type, exactly one tool is invoked: the one the dispatch
    table names, with the serialisation of the validated request, whose
    keys are the fields the table lists, in that order and no others.
    With the defaults of the Smart Mentions form (limit 5, offset 0) the
    input is the object with [limit] 5 and [offset] 0, which
    [json.dumps] writes [{"limit": 5, "offset": 0}]. *)
Theorem dispatch_follows_table env s from_ts to_ts tool :
  accepted env s from_ts to_ts ->
  next_tool (tools env) (table_tool_name (query_spec s)) = Some tool ->
  calls (trace (dashboard env s)) =
    [(table_tool_name (query_spec s),
      json_dumps (JObj (validated_request s from_ts to_ts)))] /\
  keys (JObj (validated_request s from_ts to_ts))
    = table_payload_fields (query_spec s) /\
  (s = GetSmartMentions 5 0 ->
   validated_request s from_ts to_ts
     = [(py "limit", JInt 5); (py "offset", JInt 0)] /\
   calls (trace (dashboard env s)) =
     [(py "elfa_ai_get_smart_mentions", pyq "{'limit': 5, 'offset': 0}")] /\
   compact (json_dumps (JObj (validated_request s from_ts to_ts)))
     = pyq "{'limit':5,'offset':0}").
Proof.
  intros Hacc Htool.
  assert (Hcalls : calls (trace (dashboard env s)) =
            [(table_tool_name (query_spec s),
              json_dumps (JObj (validated_request s from_ts to_ts)))]).
  { rewrite (accepted_calls _ _ _ _ Hacc), Htool.
    now rewrite (next_tool_name _ _ _ Htool). }
  split; [exact Hcalls|split].
  - apply validated_request_keys.
  - intros ->. rewrite Hcalls. repeat split.
Qed.

(** C6.  The input of an accepted keyword search has the empty string as
    its [cursor]: the object holds [""] under that key, and the text
    ends with ["cursor": ""}]. *)
Theorem search_cursor_is_empty env keywords from_date to_date limit_input
    from_ts to_ts tool :
  accepted env (SearchMentionsByKeywords keywords from_date to_date limit_input)
    from_ts to_ts ->
  next_tool (tools env) (py "elfa_ai_search_mentions_by_keywords") = Some tool ->
  let payload :=
    search_mentions_dict keywords from_ts to_ts (clamped_limit limit_input) in
  calls (trace (search_mentions env keywords from_date to_date limit_input))
    = [(py "elfa_ai_search_mentions_by_keywords", json_dumps payload)] /\
  get (py "cursor") payload = Some (JStr []) /\
  exists front, json_dumps payload = front ++ pyq "'cursor': ''}".
Proof.
  intros Hacc Htool payload.
  set (s := SearchMentionsByKeywords keywords from_date to_date limit_input) in *.
  split; [|split].
  - change (search_mentions env keywords from_date to_date limit_input)
      with (dashboard env s).
    rewrite (accepted_calls _ _ _ _ Hacc).
    cbn [query_spec table_tool_name s]. rewrite Htool.
    now rewrite (next_tool_name _ _ _ Htool).
  - reflexivity.
  - unfold payload, search_mentions_dict.
    cbn [json_dumps List.map join fst snd].
    eexists. rewrite !app_assoc.
    change (pyq "'cursor': ''}")
      with (encode_basestring_ascii (py "cursor") ++ py ": "
            ++ encode_basestring_ascii (py "") ++ py "}").
    rewrite !app_assoc. reflexivity.
Qed.

(** C7.  With the defaults of the Trending Tokens form (time window
    "24h", page 1, 10 tokens, at least 5 mentions) the tool is given the
    object with [time_window] "24h", [page] 1, [page_size] 10 and
    [min_mentions] 5, in this order. *)
Theorem trending_tokens_defaults env tool :
  next_tool (tools env) (py "elfa_ai_get_trending_tokens") = Some tool ->
  default_trending_tokens = GetTrendingTokens (py "24h") 1 10 5 /\
  trending_tokens_dict (py "24h") 1 10 5 =
    JObj [(py "time_window", JStr (py "24h")); (py "page", JInt 1);
          (py "page_size", JInt 10); (py "min_mentions", JInt 5)] /\
  calls (trace (dashboard env default_trending_tokens)) =
    [(py "elfa_ai_get_trending_tokens",
      json_dumps (trending_tokens_dict (py "24h") 1 10 5))] /\
  json_dumps (trending_tokens_dict (py "24h") 1 10 5) =
    pyq "{'time_window': '24h', 'page': 1, 'page_size': 10, 'min_mentions': 5}" /\
  compact (json_dumps (trending_tokens_dict (py "24h") 1 10 5)) =
    pyq "{'time_window':'24h','page':1,'page_size':10,'min_mentions':5}".
Proof.
  intros Htool. repeat split.
  rewrite (accepted_calls env default_trending_tokens 0 0 I).
  cbn [query_spec default_trending_tokens table_tool_name]. rewrite Htool.
  now rewrite (next_tool_name _ _ _ Htool).
Qed.

(** ** String literals can be read back *)

Section Unescape.
Local Open Scope N_scope.

Lemma unhex_hex_digit d : d < 16 -> unhex_digit (hex_digit d) = d.
Proof.
  intros H. unfold hex_digit, unhex_digit.
  destruct (N.ltb_spec d 10).
  - destruct (N.ltb_spec (48 + d) 58); lia.
  - destruct (N.ltb_spec (87 + d) 58); lia.
Qed.

Lemma unhex4_hex4 n :
  n < 65536 ->
  match hex4 n with
  | [a; b; c; d] => unhex4 a b c d = n
  | _ => False
  end.
Proof.
  intros H. unfold hex4, unhex4. rewrite !N.shiftr_div_pow2.
  rewrite !unhex_hex_digit by (apply N.mod_upper_bound; lia).
  change (2 ^ 12) with 4096. change (2 ^ 8) with 256. change (2 ^ 4) with 16.
  replace (n / 4096) with (n / 16 / 16 / 16)
    by (rewrite !N.Div0.div_div; reflexivity).
  replace (n / 256) with (n / 16 / 16)
    by (rewrite !N.Div0.div_div; reflexivity).
  zify. Z.to_euclidean_division_equations. lia.
Qed.

Lemma lor_small x :
  x < 1024 -> N.lor 55296 x = 55296 + x /\ N.lor 56320 x = 56320 + x.
Proof.
  intros H.
  assert (Hall : List.forallb
            (fun k => (N.lor 55296 (N.of_nat k) =? 55296 + N.of_nat k)
                      && (N.lor 56320 (N.of_nat k) =? 56320 + N.of_nat k))
            (List.seq 0 1024) = true) by (vm_compute; reflexivity).
  rewrite List.forallb_forall in Hall.
  specialize (Hall (N.to_nat x)). rewrite N2Nat.id in Hall.
  rewrite andb_true_iff, !N.eqb_eq in Hall.
  apply Hall, List.in_seq. lia.
Qed.

Lemma unescape_single a b c d rest :
  is_high (unhex4 a b c d) = false ->
  unescape (92 :: 117 :: a :: b :: c :: d :: rest)
  = unhex4 a b c d :: unescape rest.
Proof.
  intros H. cbn [unescape]. change (negb (92 =? 92)) with false.
  change (negb (117 =? 117)) with false. cbv iota beta zeta. now rewrite H.
Qed.

Lemma unescape_pair a b c d e f g h rest :
  is_high (unhex4 a b c d) = true ->
  is_low (unhex4 e f g h) = true ->
  unescape (92 :: 117 :: a :: b :: c :: d :: 92 :: 117 :: e :: f :: g :: h :: rest)
  = (65536 + (unhex4 a b c d - 55296) * 1024 + (unhex4 e f g h - 56320))
    :: unescape rest.
Proof.
  intros Hh Hl.
  change (unescape (92 :: 117 :: a :: b :: c :: d :: 92 :: 117 :: e :: f :: g :: h :: rest))
    with (if is_high (unhex4 a b c d) then
            if (92 =? 92) && (117 =? 117) && is_low (unhex4 e f g h)
            then (65536 + (unhex4 a b c d - 55296) * 1024 + (unhex4 e f g h - 56320))
                 :: unescape rest
            else unhex4 a b c d :: unescape (92 :: 117 :: e :: f :: g :: h :: rest)
          else unhex4 a b c d :: unescape (92 :: 117 :: e :: f :: g :: h :: rest)).
  rewrite Hh, Hl. reflexivity.
Qed.

Lemma unescape_escape_char c t :
  scalar c = true -> unescape (escape_char c ++ t) = c :: unescape t.
Proof.
  intros Hs. unfold escape_char.
  destruct (N.eqb_spec c 92); [subst; reflexivity|].
  destruct (N.eqb_spec c 34); [subst; reflexivity|].
  destruct (N.eqb_spec c 8); [subst; reflexivity|].
  destruct (N.eqb_spec c 12); [subst; reflexivity|].
  destruct (N.eqb_spec c 10); [subst; reflexivity|].
  destruct (N.eqb_spec c 13); [subst; reflexivity|].
  destruct (N.eqb_spec c 9); [subst; reflexivity|].
  destruct ((32 <=? c) && (c <=? 126)) eqn:Hp.
  - cbn [app unescape].
    destruct (N.eqb_spec c 92); [contradiction|reflexivity].
  - unfold scalar in Hs.
    rewrite orb_true_iff, andb_true_iff, !N.ltb_lt, N.leb_le in Hs.
    destruct (N.ltb_spec c 65536) as [Hlt|Hge].
    + pose proof (unhex4_hex4 c Hlt) as Hh.
      unfold hex4 in *. change (py "\u") with [92; 117]. cbn [app].
      rewrite unescape_single; rewrite Hh; [reflexivity|].
      unfold is_high. rewrite andb_false_iff, N.leb_gt, N.ltb_ge. lia.
    + cbv zeta.
      set (m := c - 65536).
      assert (Hn : m < 1048576) by (unfold m; lia).
      assert (H1 : N.land (N.shiftr m 10) 1023 = m / 1024).
      { change 1023 with (N.ones 10). rewrite N.land_ones, N.shiftr_div_pow2.
        change (2 ^ 10) with 1024. apply N.mod_small.
        zify. Z.to_euclidean_division_equations. lia. }
      assert (H2 : N.land m 1023 = m mod 1024).
      { change 1023 with (N.ones 10). now rewrite N.land_ones. }
      rewrite H1, H2.
      assert (Hq : m / 1024 < 1024)
        by (zify; Z.to_euclidean_division_equations; lia).
      assert (Hr : m mod 1024 < 1024) by (apply N.mod_upper_bound; lia).
      rewrite (proj1 (lor_small _ Hq)), (proj2 (lor_small _ Hr)).
      assert (Hh1 := unhex4_hex4 (55296 + m / 1024) ltac:(lia)).
      assert (Hh2 := unhex4_hex4 (56320 + m mod 1024) ltac:(lia)).
      unfold hex4 in *. change (py "\u") with [92; 117]. cbn [app].
      rewrite unescape_pair; rewrite ?Hh1, ?Hh2.
      * f_equal. unfold m in *. zify. Z.to_euclidean_division_equations. lia.
      * unfold is_high. rewrite andb_true_iff, N.leb_le, N.ltb_lt. lia.
      * unfold is_low. rewrite andb_true_iff, N.leb_le, N.ltb_lt. lia.
Qed.

Lemma unescape_escape s t :
  List.forallb scalar s = true ->
  unescape (List.flat_map escape_char s ++ t) = s ++ unescape t.
Proof.
  induction s as [|c s IH]; intros H; [reflexivity|].
  simpl in H. apply andb_true_iff in H as [Hc Hs].
  cbn [List.flat_map]. rewrite <- app_assoc, (unescape_escape_char _ _ Hc).
  now rewrite (IH Hs).
Qed.

Lemma encode_basestring_ascii_inj s1 s2 :
  List.forallb scalar s1 = true -> List.forallb scalar s2 = true ->
  encode_basestring_ascii s1 = encode_basestring_ascii s2 -> s1 = s2.
Proof.
  intros H1 H2 H. unfold encode_basestring_ascii in H.
  apply app_inv_head, app_inv_tail in H.
  apply (f_equal (fun x => unescape (x ++ []))) in H.
  rewrite !unescape_escape in H by assumption.
  now rewrite !app_nil_r in H.
Qed.

End Unescape.

(** ** User names *)

Lemma escape_plain c : is_plain c = true -> escape_char c = [c].
Proof.
  unfold is_plain. rewrite !andb_true_iff, !negb_true_iff.
  intros [[[Hlo Hhi] Hq] Hb]. unfold escape_char.
  rewrite Hb, Hq, Hlo, Hhi.
  apply N.leb_le in Hlo.
  repeat match goal with
         | |- context [(c =? ?k)%N] =>
             replace (c =? k)%N with false by (symmetry; apply N.eqb_neq; lia)
         end.
  reflexivity.
Qed.

Lemma encode_plain s :
  List.forallb is_plain s = true ->
  encode_basestring_ascii s = [34%N] ++ s ++ [34%N].
Proof.
  intros H. unfold encode_basestring_ascii. do 2 f_equal.
  induction s as [|c s IH]; [reflexivity|].
  simpl in H. apply andb_true_iff in H as [Hc Hs].
  cbn [List.flat_map]. rewrite (escape_plain _ Hc), (IH Hs). reflexivity.
Qed.

Lemma twitter_stats_text username :
  json_dumps (twitter_stats_dict username)
  = pyq "{'username': " ++ encode_basestring_ascii username ++ py "}".
Proof.
  unfold twitter_stats_dict. cbn [json_dumps List.map join fst snd].
  change (pyq "{'username': ")
    with (py "{" ++ encode_basestring_ascii (py "username") ++ py ": ").
  now rewrite <- !app_assoc.
Qed.

(** C8.  Every user name, the empty one included, goes into the request
    as it is: nothing is checked, no error or notice comes before the
    lookup, and the object given to the tool has the single key
    [username] with the user name as its value.  In the text the name
    stands between quotes, copied when it is plain ASCII and escaped
    otherwise, and no two names (of Unicode scalar values) give the same
    text. *)
Theorem twitter_username_passed_through env username :
  let r := dashboard env (GetTwitterStats username) in
  let text := json_dumps (twitter_stats_dict username) in
  keys (twitter_stats_dict username) = [py "username"] /\
  get (py "username") (twitter_stats_dict username) = Some (JStr username) /\
  text = pyq "{'username': " ++ encode_basestring_ascii username ++ py "}" /\
  json_dumps (twitter_stats_dict []) = pyq "{'username': ''}" /\
  infos (trace r) = [] /\
  match next_tool (tools env) (py "elfa_ai_get_smart_twitter_account_stats") with
  | Some tool =>
      calls (trace r) = [(py "elfa_ai_get_smart_twitter_account_stats", text)]
      /\ errors (trace r) = []
  | None => r = ([StError (py "Twitter Stats tool not found.")], Done tt)
  end /\
  (List.forallb is_plain username = true ->
   text = pyq "{'username': '" ++ username ++ pyq "'}") /\
  (forall other,
     List.forallb scalar username = true ->
     List.forallb scalar other = true ->
     json_dumps (twitter_stats_dict other) = text -> other = username).
Proof.
  intros r text.
  assert (Htext : text = pyq "{'username': "
                         ++ encode_basestring_ascii username ++ py "}")
    by apply twitter_stats_text.
  assert (Hacc : accepted env (GetTwitterStats username) 0 0) by exact I.
  split; [reflexivity|]. split; [reflexivity|]. split; [exact Htext|].
  split; [reflexivity|]. split; [|split; [|split]].
  - unfold r. now rewrite (accepted_infos _ _ _ _ Hacc).
  - unfold r.
    rewrite (accepted_calls _ _ _ _ Hacc), (accepted_errors _ _ _ _ Hacc).
    rewrite (dashboard_accepted _ _ _ _ Hacc).
    cbn [query_spec table_tool_name notices List.map app lookup_outcome].
    destruct (next_tool _ _) as [tool|] eqn:E.
    + now rewrite (next_tool_name _ _ _ E).
    + reflexivity.
  - intros Hplain. rewrite Htext, (encode_plain _ Hplain).
    change (pyq "{'username': '") with (pyq "{'username': " ++ [34%N]).
    change (pyq "'}") with ([34%N] ++ py "}").
    now rewrite <- !app_assoc.
  - intros other Hu Ho Heq. rewrite Htext, twitter_stats_text in Heq.
    apply app_inv_head, app_inv_tail in Heq.
    now apply encode_basestring_ascii_inj.
Qed.

(** ** Determinism *)

Lemma same_request_same_form s1 s2 f1 t1 f2 t2 :
  validated_request s1 f1 t1 = validated_request s2 f2 t2 ->
  query_spec s1 = query_spec s2.
Proof.
  intros H. apply (f_equal (List.map fst)) in H.
  rewrite !validated_request_keys in H.
  destruct s1, s2; try reflexivity; vm_compute in H; discriminate.
Qed.

(** C10.  The text given to a tool is a function of the validated
    inputs alone: two invocations whose validated requests are equal,
    from any two submissions (two keyword searches that differ in a
    limit below 20, say), with any two registries that hold the tool and
    whatever the tools answer, each make exactly one call, of the same
    tool, with the same text, character for character; the text is the
    serialisation of the request, whose keys are those of the dispatch
    table in the table's order. *)
Theorem payload_is_deterministic env1 env2 s1 s2 f1 t1 f2 t2 tool1 tool2 :
  accepted env1 s1 f1 t1 ->
  accepted env2 s2 f2 t2 ->
  validated_request s1 f1 t1 = validated_request s2 f2 t2 ->
  next_tool (tools env1) (table_tool_name (query_spec s1)) = Some tool1 ->
  next_tool (tools env2) (table_tool_name (query_spec s2)) = Some tool2 ->
  let text := json_dumps (JObj (validated_request s1 f1 t1)) in
  query_spec s1 = query_spec s2 /\
  calls (trace (dashboard env1 s1))
    = [(table_tool_name (query_spec s1), text)] /\
  calls (trace (dashboard env2 s2))
    = [(table_tool_name (query_spec s1), text)] /\
  keys (JObj (validated_request s1 f1 t1))
    = table_payload_fields (query_spec s1).
Proof.
  intros Hacc1 Hacc2 Hreq Htool1 Htool2 text.
  pose proof (same_request_same_form _ _ _ _ _ _ Hreq) as Hform.
  split; [exact Hform|]. split; [|split].
  - rewrite (accepted_calls _ _ _ _ Hacc1), Htool1.
    now rewrite (next_tool_name _ _ _ Htool1).
  - rewrite (accepted_calls _ _ _ _ Hacc2), Htool2.
    rewrite (next_tool_name _ _ _ Htool2). unfold text.
    now rewrite Hform, Hreq.
  - apply validated_request_keys.
Qed.

(** ** Failures *)

(** C5.  When no tool of the registry has the name the query type needs,
    no tool is invoked and the run never ends with an uncaught
    exception; for an accepted submission it ends normally after the
    single error message "... tool not found." of its form. *)
Theorem missing_tool_is_reported env s :
  (forall t, In t (tools env) -> name t <> table_tool_name (query_spec s)) ->
  calls (trace (dashboard env s)) = [] /\
  (forall e, result_of (dashboard env s) <> Uncaught e) /\
  (forall from_ts to_ts,
     accepted env s from_ts to_ts ->
     dashboard env s =
       (List.map StInfo (notices s) ++ [StError (not_found_error (query_spec s))],
        Done tt)).
Proof.
  intros Hnone. apply next_tool_none in Hnone.
  assert (Hacc : forall f t, accepted env s f t ->
            dashboard env s =
              (List.map StInfo (notices s)
               ++ [StError (not_found_error (query_spec s))], Done tt)).
  { intros f t H. rewrite (dashboard_accepted _ _ _ _ H), Hnone. reflexivity. }
  destruct (dashboard_cases env s) as [(f & t & H)|(msg & o & Hrun & Ho)].
  - repeat split; [| |exact Hacc].
    + now rewrite (accepted_calls _ _ _ _ H), Hnone.
    + intros e. rewrite (Hacc _ _ H). discriminate.
  - repeat split; [| |exact Hacc].
    + now rewrite Hrun.
    + intros e. rewrite Hrun. apply Ho.
Qed.

(** C4, as the code has it.  No handler surrounds the invocation: when
    the tool raises, the run of an accepted submission ends with that
    exception uncaught, right after the call; the script shows neither
    an error message nor a result. *)
Theorem tool_exception_propagates env s from_ts to_ts tool e :
  accepted env s from_ts to_ts ->
  next_tool (tools env) (table_tool_name (query_spec s)) = Some tool ->
  respond tool (json_dumps (JObj (validated_request s from_ts to_ts)))
    = Raised e ->
  let r := dashboard env s in
  r = (List.map StInfo (notices s)
       ++ [ToolCall (table_tool_name (query_spec s))
             (json_dumps (JObj (validated_request s from_ts to_ts)))],
       Uncaught e) /\
  errors (trace r) = [] /\
  (forall j, ~ In (StJson j) (trace r)).
Proof.
  intros Hacc Htool Hraise r. subst r.
  rewrite (accepted_errors _ _ _ _ Hacc), Htool.
  rewrite (dashboard_accepted _ _ _ _ Hacc), Htool.
  cbn [lookup_outcome]. rewrite Hraise, (next_tool_name _ _ _ Htool).
  cbn [fst snd trace]. repeat split.
  intros j Hin. apply in_app_or in Hin as [Hin|[Hin|[]]]; [|discriminate].
  apply in_map_iff in Hin as (m & Hm & _). discriminate.
Qed.

(** C4 as stated fails: with a toolkit whose tools raise, the Smart
    Mentions form with its defaults ends with the exception uncaught and
    without any error message. *)
Lemma tool_exception_not_caught :
  dashboard offline_env default_smart_mentions
  = ([ToolCall (py "elfa_ai_get_smart_mentions")
        (pyq "{'limit': 5, 'offset': 0}")],
     Uncaught (py "Connection refused"))
  /\ ~ (exists msg o,
          In (StError msg) (trace (dashboard offline_env default_smart_mentions))
          /\ result_of (dashboard offline_env default_smart_mentions) = Done o).
Proof.
  split; [reflexivity|].
  intros (msg & o & _ & H). vm_compute in H. discriminate.
Qed.

(** ** The theorems at concrete inputs *)

(** From 2024-01-01 to 2024-01-02 (exactly one day, in UTC) the search
    is dispatched, with the limit 5 raised to 20. *)
Lemma search_range_gate_witness :
  midnight_timestamp utc_env jan_1_2024 = Returned 1704067200 /\
  midnight_timestamp utc_env jan_2_2024 = Returned 1704153600 /\
  calls (trace (search_mentions utc_env (py "solana") jan_1_2024 jan_2_2024 5))
  = [(py "elfa_ai_search_mentions_by_keywords",
      pyq "{'keywords': 'solana', 'from_timestamp': 1704067200, 'to_timestamp': 1704153600, 'limit': 20, 'cursor': ''}")].
Proof.
  split; [reflexivity|split; [reflexivity|]].
  destruct (search_range_gate utc_env (py "solana") jan_1_2024 jan_2_2024
              1704067200 1704153600 eq_refl eq_refl 5) as (_ & H & _).
  apply (H (const_tool (py "elfa_ai_search_mentions_by_keywords") ok_answer)
           eq_refl).
  lia.
Defined.

(** From 2024-01-01 to 2024-02-01 (31 days) the run is the range error,
    with a limit of 5 as with any other. *)
Lemma search_rejection_is_only_the_range_error_witness :
  midnight_timestamp utc_env jan_1_2024 = Returned 1704067200 /\
  midnight_timestamp utc_env feb_1_2024 = Returned 1706745600 /\
  ~ (86400 <= 1706745600 - 1704067200 <= 2592000) /\
  search_mentions utc_env (py "solana") jan_1_2024 feb_1_2024 5
  = ([StError range_error], Done tt).
Proof.
  split; [reflexivity|split; [reflexivity|split; [lia|]]].
  apply (search_rejection_is_only_the_range_error utc_env (py "solana")
           jan_1_2024 feb_1_2024 1704067200 1706745600 eq_refl eq_refl 5).
  lia.
Defined.

(** Over the thirty days from 2024-01-01 to 2024-01-31 a limit of 45 is
    lowered to 30, with the notice for it. *)
Lemma search_limit_clamped_witness :
  accepted utc_env (SearchMentionsByKeywords (py "solana") jan_1_2024
                      jan_31_2024 45) 1704067200 1706659200 /\
  infos (trace (search_mentions utc_env (py "solana") jan_1_2024 jan_31_2024 45))
  = [above_notice].
Proof.
  assert (H : accepted utc_env
                (SearchMentionsByKeywords (py "solana") jan_1_2024
                   jan_31_2024 45) 1704067200 1706659200)
    by (split; [reflexivity|split; [reflexivity|lia]]).
  split; [exact H|].
  exact (proj1 (proj2 (search_limit_clamped utc_env (py "solana") jan_1_2024
                         jan_31_2024 45 1704067200 1706659200 H))).
Defined.

(** The Smart Mentions form with its defaults. *)
Lemma dispatch_follows_table_witness :
  accepted utc_env (GetSmartMentions 5 0) 0 0 /\
  next_tool (tools utc_env) (table_tool_name SmartMentions)
    = Some (const_tool (py "elfa_ai_get_smart_mentions") ok_answer) /\
  calls (trace (dashboard utc_env (GetSmartMentions 5 0)))
    = [(py "elfa_ai_get_smart_mentions", pyq "{'limit': 5, 'offset': 0}")].
Proof.
  split; [exact I|split; [reflexivity|]].
  destruct (dispatch_follows_table utc_env (GetSmartMentions 5 0) 0 0
              (const_tool (py "elfa_ai_get_smart_mentions") ok_answer)
              I eq_refl) as (_ & _ & H).
  exact (proj1 (proj2 (H eq_refl))).
Defined.

Lemma search_cursor_is_empty_witness :
  accepted utc_env (SearchMentionsByKeywords (py "solana") jan_1_2024
                      jan_2_2024 25) 1704067200 1704153600 /\
  next_tool (tools utc_env) (py "elfa_ai_search_mentions_by_keywords")
    = Some (const_tool (py "elfa_ai_search_mentions_by_keywords") ok_answer) /\
  get (py "cursor") (search_mentions_dict (py "solana") 1704067200 1704153600
                       (clamped_limit 25)) = Some (JStr []).
Proof.
  assert (H : accepted utc_env
                (SearchMentionsByKeywords (py "solana") jan_1_2024
                   jan_2_2024 25) 1704067200 1704153600)
    by (split; [reflexivity|split; [reflexivity|lia]]).
  split; [exact H|split; [reflexivity|]].
  exact (proj1 (proj2 (search_cursor_is_empty utc_env (py "solana") jan_1_2024
                         jan_2_2024 25 1704067200 1704153600
                         (const_tool (py "elfa_ai_search_mentions_by_keywords")
                            ok_answer) H eq_refl))).
Defined.

Lemma trending_tokens_defaults_witness :
  next_tool (tools utc_env) (py "elfa_ai_get_trending_tokens")
    = Some (const_tool (py "elfa_ai_get_trending_tokens") ok_answer) /\
  calls (trace (dashboard utc_env default_trending_tokens)) =
    [(py "elfa_ai_get_trending_tokens",
      json_dumps (trending_tokens_dict (py "24h") 1 10 5))].
Proof.
  split; [reflexivity|].
  exact (proj1 (proj2 (proj2 (trending_tokens_defaults utc_env
           (const_tool (py "elfa_ai_get_trending_tokens") ok_answer)
           eq_refl)))).
Defined.

(** The user name [elfa_ai] is written between quotes as it is. *)
Lemma twitter_username_passed_through_witness :
  List.forallb is_plain (py "elfa_ai") = true /\
  json_dumps (twitter_stats_dict (py "elfa_ai")) = pyq "{'username': 'elfa_ai'}".
Proof.
  split; [reflexivity|].
  destruct (twitter_username_passed_through utc_env (py "elfa_ai"))
    as (_ & _ & _ & _ & _ & _ & H & _).
  exact (H eq_refl).
Defined.

(** Two keyword searches with the limits 5 and 7, against two toolkits:
    both send the text with the limit 20. *)
Lemma payload_is_deterministic_witness :
  accepted utc_env
    (SearchMentionsByKeywords (py "solana") jan_1_2024 jan_2_2024 5)
    1704067200 1704153600 /\
  accepted offline_env
    (SearchMentionsByKeywords (py "solana") jan_1_2024 jan_2_2024 7)
    1704067200 1704153600 /\
  calls (trace (dashboard utc_env
                  (SearchMentionsByKeywords (py "solana") jan_1_2024
                     jan_2_2024 5)))
  = [(py "elfa_ai_search_mentions_by_keywords",
      pyq "{'keywords': 'solana', 'from_timestamp': 1704067200, 'to_timestamp': 1704153600, 'limit': 20, 'cursor': ''}")]
  /\
  calls (trace (dashboard offline_env
                  (SearchMentionsByKeywords (py "solana") jan_1_2024
                     jan_2_2024 7)))
  = [(py "elfa_ai_search_mentions_by_keywords",
      pyq "{'keywords': 'solana', 'from_timestamp': 1704067200, 'to_timestamp': 1704153600, 'limit': 20, 'cursor': ''}")]
  /\
  calls (trace (dashboard utc_env default_top_mentions))
  = calls (trace (dashboard offline_env default_top_mentions)).
Proof.
  assert (H1 : accepted utc_env
                 (SearchMentionsByKeywords (py "solana") jan_1_2024
                    jan_2_2024 5) 1704067200 1704153600)
    by (split; [reflexivity|split; [reflexivity|lia]]).
  assert (H2 : accepted offline_env
                 (SearchMentionsByKeywords (py "solana") jan_1_2024
                    jan_2_2024 7) 1704067200 1704153600)
    by (split; [reflexivity|split; [reflexivity|lia]]).
  split; [exact H1|]. split; [exact H2|].
  destruct (payload_is_deterministic utc_env offline_env
              (SearchMentionsByKeywords (py "solana") jan_1_2024 jan_2_2024 5)
              (SearchMentionsByKeywords (py "solana") jan_1_2024 jan_2_2024 7)
              1704067200 1704153600 1704067200 1704153600
              (const_tool (py "elfa_ai_search_mentions_by_keywords") ok_answer)
              (const_tool (py "elfa_ai_search_mentions_by_keywords") unreachable)
              H1 H2 eq_refl eq_refl eq_refl) as (_ & Hc1 & Hc2 & _).
  split; [exact Hc1|]. split; [exact Hc2|].
  destruct (payload_is_deterministic utc_env offline_env
              default_top_mentions default_top_mentions 0 0 0 0
              (const_tool (py "elfa_ai_get_top_mentions_by_ticker") ok_answer)
              (const_tool (py "elfa_ai_get_top_mentions_by_ticker") unreachable)
              I I eq_refl eq_refl eq_refl) as (_ & Ht1 & Ht2 & _).
  exact (eq_trans Ht1 (eq_sym Ht2)).
Defined.

(** A toolkit without the Twitter tool. *)
Lemma missing_tool_is_reported_witness :
  (forall t, In t (tools bare_env) -> name t <> table_tool_name TwitterStats) /\
  dashboard bare_env (GetTwitterStats (py "elfa_ai"))
  = ([StError (py "Twitter Stats tool not found.")], Done tt).
Proof.
  assert (Hnone : forall t, In t (tools bare_env) ->
                            name t <> table_tool_name TwitterStats)
    by (apply next_tool_none; reflexivity).
  split; [exact Hnone|].
  destruct (missing_tool_is_reported bare_env (GetTwitterStats (py "elfa_ai"))
              Hnone) as (_ & _ & H).
  exact (H 0 0 I).
Defined.

(** The Trending Tokens form against a toolkit that cannot reach the
    remote end. *)
Lemma tool_exception_propagates_witness :
  accepted offline_env default_trending_tokens 0 0 /\
  next_tool (tools offline_env) (table_tool_name TrendingTokens)
    = Some (const_tool (py "elfa_ai_get_trending_tokens") unreachable) /\
  result_of (dashboard offline_env default_trending_tokens)
    = Uncaught (py "Connection refused") /\
  errors (trace (dashboard offline_env default_trending_tokens)) = [].
Proof.
  split; [exact I|split; [reflexivity|]].
  destruct (tool_exception_propagates offline_env default_trending_tokens 0 0
              (const_tool (py "elfa_ai_get_trending_tokens") unreachable)
              (py "Connection refused") I eq_refl eq_refl) as (H & He & _).
  split; [|exact He].
  exact (f_equal snd H).
Defined.

(** * Further properties of the script *)

(** ** The outcome of the lookup *)

Lemma results_app (a b : list event) :
  results (a ++ b) = results a ++ results b.
Proof. unfold results. apply List.flat_map_app. Qed.

Lemma results_notices (l : list pystr) : results (List.map StInfo l) = [].
Proof. induction l; simpl; auto. Qed.

#[local] Hint Rewrite results_app results_notices : projections.

(** X1.  A keyword search ends at [st.stop()] exactly when one of its
    two dates fails to convert.  The page then shows the date error of
    the first failing conversion (the start date before the end date)
    and nothing else: no range check, no notice, no lookup. *)
Theorem search_stops_on_date_error env keywords from_date to_date limit_input :
  let r := search_mentions env keywords from_date to_date limit_input in
  (result_of r = Stopped <->
   (exists e, midnight_timestamp env from_date = Raised e) \/
   (exists e, midnight_timestamp env to_date = Raised e)) /\
  (forall e,
     midnight_timestamp env from_date = Raised e ->
     r = ([StError (py "Date error: " ++ e)], Stopped)) /\
  (forall from_ts e,
     midnight_timestamp env from_date = Returned from_ts ->
     midnight_timestamp env to_date = Raised e ->
     r = ([StError (py "Date error: " ++ e)], Stopped)).
Proof.
  intros r. split; [|split].
  - split.
    + intros Hstop.
      destruct (midnight_timestamp env from_date) as [from_ts|e] eqn:Hf;
        [|left; now exists e].
      destruct (midnight_timestamp env to_date) as [to_ts|e] eqn:Ht;
        [|right; now exists e].
      exfalso. unfold r, result_of in Hstop.
      rewrite (search_mentions_converted _ _ _ _ _ _ _ Hf Ht) in Hstop.
      destruct (negb _); [discriminate|].
      cbn [snd] in Hstop. unfold lookup_outcome in Hstop.
      destruct (next_tool _ _) as [tool|]; [|discriminate].
      destruct (respond tool _); discriminate.
    + intros [[e He]|[e He]].
      * unfold r. now rewrite (search_mentions_from_raises _ _ _ _ _ _ He).
      * destruct (midnight_timestamp env from_date) as [from_ts|e'] eqn:Hf.
        -- unfold r.
           now rewrite (search_mentions_to_raises _ _ _ _ _ _ _ Hf He).
        -- unfold r. now rewrite (search_mentions_from_raises _ _ _ _ _ _ Hf).
  - intros e He. now apply search_mentions_from_raises.
  - intros from_ts e Hf He. now apply search_mentions_to_raises with from_ts.
Qed.

(** X2.  When the tool answers, the run of an accepted submission is:
    the notices, the one call, then [st.json] of the very value the tool
    returned; it ends normally. *)
Theorem tool_result_is_displayed env s from_ts to_ts tool answer :
  accepted env s from_ts to_ts ->
  next_tool (tools env) (table_tool_name (query_spec s)) = Some tool ->
  respond tool (json_dumps (JObj (validated_request s from_ts to_ts)))
    = Returned answer ->
  dashboard env s =
    (List.map StInfo (notices s)
     ++ [ToolCall (table_tool_name (query_spec s))
           (json_dumps (JObj (validated_request s from_ts to_ts)));
         StJson answer],
     Done tt).
Proof.
  intros Hacc Htool Hans.
  rewrite (dashboard_accepted _ _ _ _ Hacc), Htool.
  cbn [lookup_outcome]. rewrite Hans, (next_tool_name _ _ _ Htool).
  reflexivity.
Qed.

Lemma dashboard_depends_on_lookup env1 env2 s :
  (forall d, midnight_timestamp env1 d = midnight_timestamp env2 d) ->
  next_tool (tools env1) (table_tool_name (query_spec s))
  = next_tool (tools env2) (table_tool_name (query_spec s)) ->
  dashboard env1 s = dashboard env2 s.
Proof.
  intros Hts Hnext.
  destruct s; cbn [dashboard query_spec table_tool_name] in *.
  - unfold smart_mentions. now rewrite Hnext.
  - unfold top_mentions. now rewrite Hnext.
  - unfold search_mentions. now rewrite Hnext, !Hts.
  - unfold trending_tokens. now rewrite Hnext.
  - unfold twitter_stats. now rewrite Hnext.
Qed.

Lemma next_tool_first before tool after wanted :
  (forall t, In t before -> name t <> wanted) ->
  name tool = wanted ->
  next_tool (before ++ tool :: after) wanted = Some tool.
Proof.
  intros Hbefore Hname. unfold next_tool.
  induction before as [|b before IH]; cbn [app List.find].
  - now rewrite Hname, str_eqb_refl.
  - destruct (str_eqb (name b) wanted) eqn:E.
    + apply str_eqb_eq in E. now elim (Hbefore b (or_introl eq_refl)).
    + apply IH. intros t Ht. apply Hbefore. now right.
Qed.

(** X3.  The lookup takes the first tool of the registry that has the
    wanted name.  Tools before it with other names and all the tools
    after it, a second one of the same name included, play no part: the
    run is that of a registry holding this tool alone. *)
Theorem first_registered_tool_is_used env s before tool after :
  tools env = before ++ tool :: after ->
  (forall t, In t before -> name t <> table_tool_name (query_spec s)) ->
  name tool = table_tool_name (query_spec s) ->
  next_tool (tools env) (table_tool_name (query_spec s)) = Some tool /\
  dashboard env s =
    dashboard {| tools := [tool];
                 midnight_timestamp := midnight_timestamp env |} s.
Proof.
  intros Htools Hbefore Hname.
  assert (Hnext : next_tool (tools env) (table_tool_name (query_spec s))
                  = Some tool)
    by (rewrite Htools; now apply next_tool_first).
  split; [exact Hnext|].
  apply dashboard_depends_on_lookup; [reflexivity|].
  rewrite Hnext. symmetry.
  apply (next_tool_first [] tool []); [intros t []|exact Hname].
Qed.


(** ** Initialisation *)

Lemma init_solana_ok {Kit} (p : Platform Kit) kit tools :
  SolanaAgentKit p (getenv p (py "SOLANA_PRIVATE_KEY"))
    (getenv p (py "ELFA_AI_API_KEY")) = Succeeds kit ->
  get_elfaai_tools p kit = Succeeds tools ->
  init_solana p = ([], Done (Some (kit, tools))).
Proof. intros Hk Ht. unfold init_solana. now rewrite Hk; cbn; rewrite Ht. Qed.

Lemma init_solana_caught {Kit} (p : Platform Kit) e :
  SolanaAgentKit p (getenv p (py "SOLANA_PRIVATE_KEY"))
    (getenv p (py "ELFA_AI_API_KEY")) = RaisesException e \/
  (exists kit,
     SolanaAgentKit p (getenv p (py "SOLANA_PRIVATE_KEY"))
       (getenv p (py "ELFA_AI_API_KEY")) = Succeeds kit /\
     get_elfaai_tools p kit = RaisesException e) ->
  init_solana p
  = ([StError (py "Error initializing AgentiPy: " ++ e)], Done None).
Proof.
  intros [Hk|(kit & Hk & Ht)]; unfold init_solana; rewrite Hk;
    [reflexivity|]. cbn. now rewrite Ht.
Qed.

Lemma init_solana_not_caught {Kit} (p : Platform Kit) e :
  SolanaAgentKit p (getenv p (py "SOLANA_PRIVATE_KEY"))
    (getenv p (py "ELFA_AI_API_KEY")) = RaisesBaseException e \/
  (exists kit,
     SolanaAgentKit p (getenv p (py "SOLANA_PRIVATE_KEY"))
       (getenv p (py "ELFA_AI_API_KEY")) = Succeeds kit /\
     get_elfaai_tools p kit = RaisesBaseException e) ->
  init_solana p = ([], Uncaught e).
Proof.
  intros [Hk|(kit & Hk & Ht)]; unfold init_solana; rewrite Hk;
    [reflexivity|]. cbn. now rewrite Ht.
Qed.

Lemma failed_init_runs {Kit} (p : Platform Kit) form pressed e :
  (SolanaAgentKit p (getenv p (py "SOLANA_PRIVATE_KEY"))
     (getenv p (py "ELFA_AI_API_KEY")) = RaisesException e \/
   (exists kit,
      SolanaAgentKit p (getenv p (py "SOLANA_PRIVATE_KEY"))
        (getenv p (py "ELFA_AI_API_KEY")) = Succeeds kit /\
      get_elfaai_tools p kit = RaisesException e) ->
   script p form pressed
   = ([StError (py "Error initializing AgentiPy: " ++ e)], Stopped)) /\
  (SolanaAgentKit p (getenv p (py "SOLANA_PRIVATE_KEY"))
     (getenv p (py "ELFA_AI_API_KEY")) = RaisesBaseException e \/
   (exists kit,
      SolanaAgentKit p (getenv p (py "SOLANA_PRIVATE_KEY"))
        (getenv p (py "ELFA_AI_API_KEY")) = Succeeds kit /\
      get_elfaai_tools p kit = RaisesBaseException e) ->
   script p form pressed = ([], Uncaught e)).
Proof.
  split; intros H; unfold script.
  - now rewrite (init_solana_caught _ _ H).
  - now rewrite (init_solana_not_caught _ _ H).
Qed.

(** X5.  When the construction of the kit, or the listing of its tools,
    raises an exception that derives from [Exception], [init_solana]
    catches it: the page shows the initialisation error and the script
    stops there, whichever form is selected and whether or not its
    button was pressed.  An exception that derives from [BaseException]
    only is not caught: the script shows nothing and ends with that
    exception.  No tool is invoked in either case. *)
Theorem failed_initialisation_stops_the_script {Kit} (p : Platform Kit)
    form pressed e :
  (SolanaAgentKit p (getenv p (py "SOLANA_PRIVATE_KEY"))
     (getenv p (py "ELFA_AI_API_KEY")) = RaisesException e \/
   (exists kit,
      SolanaAgentKit p (getenv p (py "SOLANA_PRIVATE_KEY"))
        (getenv p (py "ELFA_AI_API_KEY")) = Succeeds kit /\
      get_elfaai_tools p kit = RaisesException e) ->
   script p form pressed
   = ([StError (py "Error initializing AgentiPy: " ++ e)], Stopped)) /\
  (SolanaAgentKit p (getenv p (py "SOLANA_PRIVATE_KEY"))
     (getenv p (py "ELFA_AI_API_KEY")) = RaisesBaseException e \/
   (exists kit,
      SolanaAgentKit p (getenv p (py "SOLANA_PRIVATE_KEY"))
        (getenv p (py "ELFA_AI_API_KEY")) = Succeeds kit /\
      get_elfaai_tools p kit = RaisesBaseException e) ->
   script p form pressed = ([], Uncaught e)).
Proof. apply failed_init_runs. Qed.

(** X6.  A tool is invoked in a run of the script only when the
    initialisation succeeded and the button of the selected form was
    pressed; the run is then that of the form, with the tools the kit
    listed, and the tool is the one of the form. *)
Theorem call_needs_initialisation_and_button {Kit} (p : Platform Kit)
    form pressed n input :
  In (ToolCall n input) (trace (script p form pressed)) ->
  pressed = true /\
  n = table_tool_name (query_spec form) /\
  exists kit tools,
    SolanaAgentKit p (getenv p (py "SOLANA_PRIVATE_KEY"))
      (getenv p (py "ELFA_AI_API_KEY")) = Succeeds kit /\
    get_elfaai_tools p kit = Succeeds tools /\
    script p form pressed =
      dashboard {| tools := tools; midnight_timestamp := local_midnight p |}
        form.
Proof.
  intros Hin.
  assert (Hcaught : forall e,
            script p form pressed
            = ([StError (py "Error initializing AgentiPy: " ++ e)], Stopped)
            -> False).
  { intros e H. rewrite H in Hin. destruct Hin as [Hin|[]]. discriminate. }
  assert (Hnot : forall e, script p form pressed = ([], Uncaught e) -> False).
  { intros e H. rewrite H in Hin. destruct Hin. }
  pose proof (fun e => proj1 (failed_init_runs p form pressed e)) as Hc.
  pose proof (fun e => proj2 (failed_init_runs p form pressed e)) as Hn.
  destruct (SolanaAgentKit p (getenv p (py "SOLANA_PRIVATE_KEY"))
              (getenv p (py "ELFA_AI_API_KEY"))) as [kit|e|e] eqn:Hk.
  - destruct (get_elfaai_tools p kit) as [tools|e|e] eqn:Ht.
    + assert (Hrun : script p form pressed =
                if pressed then
                  dashboard {| tools := tools;
                               midnight_timestamp := local_midnight p |} form
                else ret tt).
      { unfold script. rewrite (init_solana_ok _ _ _ Hk Ht).
        change ([], Done (Some (kit, tools)))
          with (ret (A := option (Kit * list Tool)) (Some (kit, tools))).
        now rewrite bind_ret_l. }
      rewrite Hrun in Hin. destruct pressed; [|destruct Hin].
      split; [reflexivity|]. split.
      * apply call_shape in Hin as (_ & _ & _ & Hn' & _). exact Hn'.
      * exists kit, tools. auto.
    + exfalso. apply (Hcaught e), Hc. right. now exists kit.
    + exfalso. apply (Hnot e), Hn. right. now exists kit.
  - exfalso. apply (Hcaught e), Hc. now left.
  - exfalso. apply (Hnot e), Hn. now left.
Qed.

(** ** Printable payloads *)

Lemma json_nested_ind (P : json -> Prop) :
  P JNull -> (forall b, P (JBool b)) -> (forall z, P (JInt z)) ->
  (forall s, P (JStr s)) ->
  (forall items, Forall P items -> P (JArr items)) ->
  (forall members, Forall (fun kv => P (snd kv)) members -> P (JObj members)) ->
  forall j, P j.
Proof.
  intros Hnull Hbool Hint Hstr Harr Hobj.
  fix IH 1. intros [ |b|z|s|items|members].
  - exact Hnull.
  - apply Hbool.
  - apply Hint.
  - apply Hstr.
  - apply Harr. revert items. fix IHl 1. intros [|j items].
    + constructor.
    + constructor; [apply IH|apply IHl].
  - apply Hobj. revert members. fix IHl 1. intros [|[k j] members].
    + constructor.
    + constructor; [apply IH|apply IHl].
Qed.

Lemma forallb_app_true {A} (f : A -> bool) a b :
  forallb f a = true -> forallb f b = true -> forallb f (a ++ b) = true.
Proof. intros Ha Hb. now rewrite forallb_app, Ha, Hb. Qed.

Lemma hex_digit_printable d : (d < 16)%N -> printable (hex_digit d) = true.
Proof.
  intros H. unfold printable, hex_digit.
  destruct (N.ltb_spec d 10); apply andb_true_iff; split; apply N.leb_le; lia.
Qed.

Lemma hex4_printable n : forallb printable (hex4 n) = true.
Proof.
  unfold hex4. cbn [forallb].
  rewrite !hex_digit_printable by (apply N.mod_upper_bound; lia).
  reflexivity.
Qed.

Lemma escape_char_printable c : forallb printable (escape_char c) = true.
Proof.
  unfold escape_char.
  repeat match goal with
         | |- context [if (c =? ?k)%N then _ else _] =>
             destruct (c =? k)%N; [reflexivity|]
         end.
  destruct ((32 <=? c)%N && (c <=? 126)%N) eqn:E.
  - cbn [forallb]. unfold printable. now rewrite E.
  - destruct (c <? 65536)%N; cbv zeta;
      repeat (apply forallb_app_true; try apply hex4_printable; try reflexivity).
Qed.

Lemma encode_printable s : forallb printable (encode_basestring_ascii s) = true.
Proof.
  unfold encode_basestring_ascii.
  apply forallb_app_true; [reflexivity|].
  apply forallb_app_true; [|reflexivity].
  induction s as [|c s IH]; [reflexivity|].
  cbn [flat_map]. apply forallb_app_true; [apply escape_char_printable|exact IH].
Qed.

(** The characters of a decimal numeral: the digits and the minus sign. *)
Lemma uint_printable d :
  forallb printable (py (NilEmpty.string_of_uint d)) = true.
Proof. induction d; cbn; auto. Qed.

Lemma nz_uint_printable d :
  forallb printable (py (NilZero.string_of_uint d)) = true.
Proof.
  destruct d; [reflexivity| | | | | | | | | |];
    match goal with |- context [NilZero.string_of_uint ?u] =>
      exact (uint_printable u) end.
Qed.

Lemma int_repr_printable z : forallb printable (int_repr z) = true.
Proof.
  unfold int_repr. destruct (Z.to_int z) as [d|d].
  - apply nz_uint_printable.
  - change (forallb printable (45%N :: py (NilZero.string_of_uint d)) = true).
    cbn [forallb]. now rewrite nz_uint_printable.
Qed.

Lemma join_printable sep parts :
  forallb printable sep = true ->
  Forall (fun part => forallb printable part = true) parts ->
  forallb printable (join sep parts) = true.
Proof.
  intros Hsep Hparts. induction Hparts as [|part parts Hp _ IH];
    [reflexivity|].
  destruct parts as [|q parts]; [exact Hp|].
  change (join sep (part :: q :: parts))
    with (part ++ sep ++ join sep (q :: parts)).
  repeat apply forallb_app_true; assumption.
Qed.

Lemma json_dumps_printable j : forallb printable (json_dumps j) = true.
Proof.
  induction j as [ |b|z|s|items IH|members IH] using json_nested_ind.
  - reflexivity.
  - now destruct b.
  - apply int_repr_printable.
  - apply encode_printable.
  - cbn [json_dumps]. apply forallb_app_true; [reflexivity|].
    apply forallb_app_true; [|reflexivity].
    apply join_printable; [reflexivity|].
    induction IH; constructor; assumption.
  - cbn [json_dumps]. apply forallb_app_true; [reflexivity|].
    apply forallb_app_true; [|reflexivity].
    apply join_printable; [reflexivity|].
    induction IH as [|kv members Hkv _ IH]; constructor; [|exact IH].
    apply forallb_app_true; [apply encode_printable|].
    apply forallb_app_true; [reflexivity|exact Hkv].
Qed.

(** X7.  Whatever the user typed, the text given to a tool consists of
    printable ASCII characters only ([json.dumps] escapes everything
    else), and so does the serialisation of any JSON value. *)
Theorem payload_is_printable_ascii env s n input :
  In (ToolCall n input) (trace (dashboard env s)) ->
  forallb printable input = true /\
  (forall j, forallb printable (json_dumps j) = true).
Proof.
  intros Hin. apply call_shape in Hin as (f & t & _ & _ & ->).
  split; [apply json_dumps_printable|apply json_dumps_printable].
Qed.

(** ** The text determines the request *)

Lemma py_inj a b : py a = py b -> a = b.
Proof.
  unfold py. intros H.
  rewrite <- (string_of_list_ascii_of_string a),
          <- (string_of_list_ascii_of_string b).
  f_equal. revert H.
  generalize (list_ascii_of_string a) (list_ascii_of_string b).
  induction l as [|x l IH]; intros [|y l']; cbn; try discriminate; auto.
  intros H. inversion H as [[Hx Hl]].
  rewrite <- (ascii_N_embedding x), <- (ascii_N_embedding y), Hx.
  f_equal. now apply IH.
Qed.

Lemma to_int_proper z :
  Z.to_int z <> Decimal.Pos Decimal.Nil /\
  Z.to_int z <> Decimal.Neg Decimal.Nil.
Proof.
  destruct z as [|p|p]; cbn; split; try discriminate;
    intros H; inversion H as [Hp];
    now apply DecimalPos.Unsigned.to_uint_nonnil in Hp.
Qed.

Lemma int_repr_inj z z' : int_repr z = int_repr z' -> z = z'.
Proof.
  unfold int_repr. intros H. apply py_inj in H.
  apply DecimalZ.to_int_inj.
  destruct (to_int_proper z) as [Hp Hn], (to_int_proper z') as [Hp' Hn'].
  pose proof (NilZero.isi _ Hp Hn) as E.
  rewrite H, (NilZero.isi _ Hp' Hn') in E. now inversion E.
Qed.

Lemma uint_numeral d :
  forallb numeral_char (py (NilEmpty.string_of_uint d)) = true.
Proof. induction d; cbn; auto. Qed.

Lemma int_repr_numeral z : forallb numeral_char (int_repr z) = true.
Proof.
  assert (Hnz : forall d,
            forallb numeral_char (py (NilZero.string_of_uint d)) = true).
  { intros d. destruct d; [reflexivity| | | | | | | | | |];
      match goal with |- context [NilZero.string_of_uint ?u] =>
        exact (uint_numeral u) end. }
  unfold int_repr. destruct (Z.to_int z) as [d|d]; [apply Hnz|].
  change (forallb numeral_char (45%N :: py (NilZero.string_of_uint d)) = true).
  cbn [forallb]. now rewrite Hnz.
Qed.

Lemma split_at_delimiter {A} (P : A -> bool) l1 l2 x y r1 r2 :
  forallb P l1 = true -> forallb P l2 = true ->
  P x = false -> P y = false ->
  l1 ++ x :: r1 = l2 ++ y :: r2 ->
  l1 = l2 /\ x :: r1 = y :: r2.
Proof.
  intros H1 H2 Hx Hy. revert l2 H2.
  induction l1 as [|a l1 IH]; intros [|b l2] H2 H; cbn in *.
  - auto.
  - injection H as Hxb _. subst b.
    apply andb_true_iff in H2 as [Hb _]. congruence.
  - injection H as Hay _. subst a.
    apply andb_true_iff in H1 as [Ha _]. congruence.
  - injection H as Hab Htl. subst b.
    apply andb_true_iff in H1 as [_ H1]. apply andb_true_iff in H2 as [_ H2].
    destruct (IH H1 l2 H2 Htl) as [-> E]. auto.
Qed.

Lemma int_delimited z z' sep r r' :
  match sep with
  | x :: _ => negb (numeral_char x)
  | [] => false
  end = true ->
  int_repr z ++ sep ++ r = int_repr z' ++ sep ++ r' ->
  z = z' /\ r = r'.
Proof.
  destruct sep as [|x sep]; [discriminate|]. intros Hx H.
  apply negb_true_iff in Hx. cbn [app] in H.
  apply (split_at_delimiter numeral_char) in H as [Hz Hr];
    try apply int_repr_numeral; try assumption.
  split; [now apply int_repr_inj|].
  injection Hr as Hr. now apply app_inv_head with sep.
Qed.

Lemma escape_char_head c :
  exists h t, escape_char c = h :: t /\ h <> 34%N.
Proof.
  unfold escape_char.
  repeat match goal with
         | |- context [if (c =? ?k)%N then _ else _] =>
             destruct (N.eqb_spec c k);
               [eexists _, _; split; [reflexivity|discriminate]|]
         end.
  destruct ((32 <=? c)%N && (c <=? 126)%N);
    [eexists _, _; split; [reflexivity|assumption]|].
  destruct (c <? 65536)%N;
    eexists _, _; (split; [reflexivity|discriminate]).
Qed.

Lemma escaped_delimited s s' r r' :
  forallb scalar s = true -> forallb scalar s' = true ->
  flat_map escape_char s ++ 34%N :: r = flat_map escape_char s' ++ 34%N :: r' ->
  s = s' /\ r = r'.
Proof.
  revert s'. induction s as [|c s IH]; intros [|c' s'] Hs Hs' H.
  - injection H as Hr. auto.
  - exfalso. cbn [flat_map app] in H.
    destruct (escape_char_head c') as (h & t & E & Hh). rewrite E in H.
    injection H as Hh' _. congruence.
  - exfalso. cbn [flat_map app] in H.
    destruct (escape_char_head c) as (h & t & E & Hh). rewrite E in H.
    injection H as Hh' _. congruence.
  - cbn [forallb] in Hs, Hs'.
    apply andb_true_iff in Hs as [Hc Hs]. apply andb_true_iff in Hs' as [Hc' Hs'].
    cbn [flat_map] in H. rewrite <- !app_assoc in H.
    pose proof (f_equal unescape H) as Hu.
    rewrite !unescape_escape_char in Hu by assumption.
    injection Hu as Hcc _. subst c'.
    apply app_inv_head in H. destruct (IH _ Hs Hs' H) as [-> ->]. auto.
Qed.

Lemma encode_delimited s s' r r' :
  forallb scalar s = true -> forallb scalar s' = true ->
  encode_basestring_ascii s ++ r = encode_basestring_ascii s' ++ r' ->
  s = s' /\ r = r'.
Proof.
  intros Hs Hs' H. unfold encode_basestring_ascii in H.
  rewrite <- !app_assoc in H. cbn [app] in H. injection H as H.
  now apply escaped_delimited.
Qed.

Ltac peel H :=
  repeat first
    [ apply app_inv_head in H
    | apply int_delimited in H as [? H]; [subst | reflexivity]
    | apply encode_delimited in H as [? H]; [subst | assumption | assumption] ].

Lemma request_text_inj s1 s2 f1 t1 f2 t2 :
  scalar_texts s1 = true -> scalar_texts s2 = true ->
  json_dumps (JObj (validated_request s1 f1 t1))
  = json_dumps (JObj (validated_request s2 f2 t2)) ->
  validated_request s1 f1 t1 = validated_request s2 f2 t2.
Proof.
  intros H1 H2 H.
  destruct s1, s2;
    try (exfalso; apply (f_equal (firstn 5)) in H; vm_compute in H;
         discriminate);
    cbn [scalar_texts user_texts forallb] in H1, H2;
    rewrite ?andb_true_r in H1, H2;
    repeat match goal with
           | E : _ && _ = true |- _ => apply andb_true_iff in E as [? ?]
           end;
    cbn [validated_request json_dumps List.map join fst snd] in H;
    rewrite <- ?app_assoc in H; peel H.
  - apply app_inv_tail, int_repr_inj in H. now subst.
  - apply app_inv_tail in H.
    repeat match goal with b : bool |- _ => destruct b end;
      try reflexivity; vm_compute in H; discriminate.
  - cbn [validated_request]. congruence.
  - apply app_inv_tail, int_repr_inj in H. now subst.
  - reflexivity.
Qed.

(** X8.  The text given to a tool determines the request: when two runs,
    on any submissions of Unicode scalar text, invoke a tool with the
    same text, the two submissions are of the same form and have the
    same validated fields.  No keyword, ticker or user name can be
    written so that it reads as another request. *)
Theorem same_text_same_request env1 env2 s1 s2 n1 n2 input :
  scalar_texts s1 = true -> scalar_texts s2 = true ->
  In (ToolCall n1 input) (trace (dashboard env1 s1)) ->
  In (ToolCall n2 input) (trace (dashboard env2 s2)) ->
  query_spec s1 = query_spec s2 /\ n1 = n2 /\
  exists f1 t1 f2 t2,
    accepted env1 s1 f1 t1 /\ accepted env2 s2 f2 t2 /\
    validated_request s1 f1 t1 = validated_request s2 f2 t2.
Proof.
  intros Hs1 Hs2 H1 H2.
  apply call_shape in H1 as (f1 & t1 & Hacc1 & -> & Htext1).
  apply call_shape in H2 as (f2 & t2 & Hacc2 & -> & Htext2).
  rewrite Htext1 in Htext2.
  pose proof (request_text_inj _ _ _ _ _ _ Hs1 Hs2 Htext2) as Hreq.
  pose proof (same_request_same_form _ _ _ _ _ _ Hreq) as Hform.
  split; [exact Hform|]. split; [now rewrite Hform|].
  exists f1, t1, f2, t2. auto.
Qed.

(** ** The further properties at concrete inputs *)

(** A search from 1969-12-31 on a machine without timestamps before
    1970. *)
Lemma search_stops_on_date_error_witness :
  midnight_timestamp epoch_bound_env dec_31_1969
    = Raised (py "[Errno 22] Invalid argument") /\
  search_mentions epoch_bound_env (py "solana") dec_31_1969 jan_2_2024 5
    = ([StError (py "Date error: [Errno 22] Invalid argument")], Stopped).
Proof.
  split; [reflexivity|].
  exact (proj1 (proj2 (search_stops_on_date_error epoch_bound_env
                         (py "solana") dec_31_1969 jan_2_2024 5))
           (py "[Errno 22] Invalid argument") eq_refl).
Defined.

(** The Smart Mentions form with its defaults, answered by the tool. *)
Lemma tool_result_is_displayed_witness :
  accepted utc_env default_smart_mentions 0 0 /\
  next_tool (tools utc_env) (table_tool_name SmartMentions)
    = Some (const_tool (py "elfa_ai_get_smart_mentions") ok_answer) /\
  dashboard utc_env default_smart_mentions
    = ([ToolCall (py "elfa_ai_get_smart_mentions")
          (pyq "{'limit': 5, 'offset': 0}");
        StJson (JObj [(py "status", JStr (py "ok"))])],
       Done tt).
Proof.
  split; [exact I|split; [reflexivity|]].
  exact (tool_result_is_displayed utc_env default_smart_mentions 0 0
           (const_tool (py "elfa_ai_get_smart_mentions") ok_answer)
           (JObj [(py "status", JStr (py "ok"))]) I eq_refl eq_refl).
Defined.

(** With the Smart Mentions tool registered twice, the first
    registration answers. *)
Lemma first_registered_tool_is_used_witness :
  (forall t, In t [const_tool (py "elfa_ai_ping") ok_answer] ->
             name t <> table_tool_name SmartMentions) /\
  next_tool doubled_tools (py "elfa_ai_get_smart_mentions")
    = Some (const_tool (py "elfa_ai_get_smart_mentions") (Returned (JInt 1))) /\
  dashboard {| tools := doubled_tools; midnight_timestamp := utc_midnight |}
    default_smart_mentions
  = dashboard
      {| tools := [const_tool (py "elfa_ai_get_smart_mentions")
                     (Returned (JInt 1))];
         midnight_timestamp := utc_midnight |}
      default_smart_mentions.
Proof.
  assert (Hbefore : forall t,
            In t [const_tool (py "elfa_ai_ping") ok_answer] ->
            name t <> table_tool_name SmartMentions).
  { intros t [<-|[]] H. vm_compute in H. discriminate. }
  split; [exact Hbefore|].
  exact (first_registered_tool_is_used
           {| tools := doubled_tools; midnight_timestamp := utc_midnight |}
           default_smart_mentions
           [const_tool (py "elfa_ai_ping") ok_answer]
           (const_tool (py "elfa_ai_get_smart_mentions") (Returned (JInt 1)))
           [const_tool (py "elfa_ai_get_smart_mentions") unreachable]
           eq_refl Hbefore eq_refl).
Defined.

(** Without the two variables the kit is refused and the script stops,
    here with the button of the Twitter form pressed; when the
    construction is interrupted the exception leaves the script. *)
Lemma failed_initialisation_stops_the_script_witness :
  SolanaAgentKit keyless_platform
    (getenv keyless_platform (py "SOLANA_PRIVATE_KEY"))
    (getenv keyless_platform (py "ELFA_AI_API_KEY"))
    = RaisesException (py "A valid private key must be provided.") /\
  script keyless_platform (GetTwitterStats (py "elfa_ai")) true
    = ([StError (py "Error initializing AgentiPy: A valid private key must be provided.")],
       Stopped) /\
  SolanaAgentKit interrupted_platform
    (getenv interrupted_platform (py "SOLANA_PRIVATE_KEY"))
    (getenv interrupted_platform (py "ELFA_AI_API_KEY"))
    = RaisesBaseException (py "interrupted") /\
  script interrupted_platform (GetTwitterStats (py "elfa_ai")) true
    = ([], Uncaught (py "interrupted")).
Proof.
  split; [reflexivity|]. split; [|split; [reflexivity|]].
  - exact (proj1 (failed_initialisation_stops_the_script keyless_platform
                    (GetTwitterStats (py "elfa_ai")) true
                    (py "A valid private key must be provided."))
             (or_introl eq_refl)).
  - exact (proj2 (failed_initialisation_stops_the_script interrupted_platform
                    (GetTwitterStats (py "elfa_ai")) true (py "interrupted"))
             (or_introl eq_refl)).
Defined.

Lemma call_needs_initialisation_and_button_witness :
  In (ToolCall (py "elfa_ai_get_smart_mentions")
        (pyq "{'limit': 5, 'offset': 0}"))
     (trace (script keyed_platform default_smart_mentions true)) /\
  script keyed_platform default_smart_mentions true
    = dashboard utc_env default_smart_mentions.
Proof.
  assert (Hin : In (ToolCall (py "elfa_ai_get_smart_mentions")
                      (pyq "{'limit': 5, 'offset': 0}"))
                   (trace (script keyed_platform default_smart_mentions true)))
    by (left; reflexivity).
  split; [exact Hin|].
  destruct (call_needs_initialisation_and_button keyed_platform
              default_smart_mentions true _ _ Hin)
    as (_ & _ & kit & tools & Hk & Ht & Hrun).
  injection Ht as <-. exact Hrun.
Defined.

(** A user name with a letter outside ASCII (U+00E9). *)
Lemma payload_is_printable_ascii_witness :
  In (ToolCall (py "elfa_ai_get_smart_twitter_account_stats")
        (pyq "{'username': '\u00e9lfa'}"))
     (trace (dashboard utc_env (GetTwitterStats [233; 108; 102; 97]%N))) /\
  forallb printable (pyq "{'username': '\u00e9lfa'}") = true.
Proof.
  assert (Hin : In (ToolCall (py "elfa_ai_get_smart_twitter_account_stats")
                      (pyq "{'username': '\u00e9lfa'}"))
                   (trace (dashboard utc_env
                             (GetTwitterStats [233; 108; 102; 97]%N))))
    by (left; reflexivity).
  split; [exact Hin|].
  exact (proj1 (payload_is_printable_ascii utc_env _ _ _ Hin)).
Defined.

(** Two searches that differ only in a limit below 20 send the same
    text, and are the same request. *)
Lemma same_text_same_request_witness :
  scalar_texts (SearchMentionsByKeywords (py "solana") jan_1_2024 jan_2_2024 5)
    = true /\
  scalar_texts (SearchMentionsByKeywords (py "solana") jan_1_2024 jan_2_2024 7)
    = true /\
  In (ToolCall (py "elfa_ai_search_mentions_by_keywords")
        (pyq "{'keywords': 'solana', 'from_timestamp': 1704067200, 'to_timestamp': 1704153600, 'limit': 20, 'cursor': ''}"))
     (trace (dashboard utc_env
               (SearchMentionsByKeywords (py "solana") jan_1_2024 jan_2_2024 5)))
  /\
  In (ToolCall (py "elfa_ai_search_mentions_by_keywords")
        (pyq "{'keywords': 'solana', 'from_timestamp': 1704067200, 'to_timestamp': 1704153600, 'limit': 20, 'cursor': ''}"))
     (trace (dashboard offline_env
               (SearchMentionsByKeywords (py "solana") jan_1_2024 jan_2_2024 7)))
  /\
  query_spec (SearchMentionsByKeywords (py "solana") jan_1_2024 jan_2_2024 5)
  = query_spec (SearchMentionsByKeywords (py "solana") jan_1_2024 jan_2_2024 7).
Proof.
  assert (H1 : In (ToolCall (py "elfa_ai_search_mentions_by_keywords")
        (pyq "{'keywords': 'solana', 'from_timestamp': 1704067200, 'to_timestamp': 1704153600, 'limit': 20, 'cursor': ''}"))
     (trace (dashboard utc_env
               (SearchMentionsByKeywords (py "solana") jan_1_2024 jan_2_2024 5))))
    by (right; left; reflexivity).
  assert (H2 : In (ToolCall (py "elfa_ai_search_mentions_by_keywords")
        (pyq "{'keywords': 'solana', 'from_timestamp': 1704067200, 'to_timestamp': 1704153600, 'limit': 20, 'cursor': ''}"))
     (trace (dashboard offline_env
               (SearchMentionsByKeywords (py "solana") jan_1_2024 jan_2_2024 7))))
    by (right; left; reflexivity).
  split; [reflexivity|split; [reflexivity|split; [exact H1|split; [exact H2|]]]].
  exact (proj1 (same_text_same_request utc_env offline_env
                  (SearchMentionsByKeywords (py "solana") jan_1_2024
                     jan_2_2024 5)
                  (SearchMentionsByKeywords (py "solana") jan_1_2024
                     jan_2_2024 7)
                  _ _ _ eq_refl eq_refl H1 H2)).
Defined.
